(** * QSource3 MQTT client logic: a shallow embedding and its properties

    The development follows [qsource3_mqtt_gui/qsource3_mqtt_client_logic.py]
    (the class [QSource3_MQTTClientLogic]) and the validators of [utils.py].

    Python values are a small inductive type, the object [self] together with
    the broker, the Qt signals, the logger and the file system is a record
    [engine], and a method is a function from an [engine] to an outcome and the
    [engine] it leaves behind.  An exception does not roll anything back: the
    state reached when it was raised is the state that is returned.

    What lies outside the class is kept at its boundary:
    - a Python [float] is a binary64 number, the kernel's [float];
    - a byte string is what [bytes.decode] and [json.loads] make of it, and
      the text of a JSON document is the value it denotes;
    - [client.publish] and the logger record their call and return;
      [signal.emit] records its call when the value converts to the
      argument type the signal is declared with, and raises [TypeError]
      when it does not;
    - a settings file and a payload are what [json] reads or rejects as
      invalid JSON, and a file that is written is one [open] can create;
    - [client.is_connected()] is a flag of the engine. *)

From Stdlib Require Import ZArith List String Ascii Bool Lia PrimFloat.
Import ListNotations.
Local Open Scope string_scope.
Local Open Scope Z_scope.

(** ** Python values *)

(** The values [json.loads] can produce, which are also the values the
    front-end hands to the publish methods. *)
#[local] Set Warnings "-register-all".
Inductive value : Type :=
| VNone
| VBool (b : bool)
| VInt (z : Z)
| VFloat (f : float)
| VStr (s : string)
| VList (l : list value)
| VDict (d : list (string * value)).

(** A [dict] with string keys, in insertion order. *)
Definition dict := list (string * value).

Fixpoint dict_get (d : dict) (k : string) : option value :=
  match d with
  | [] => None
  | (k', v) :: d' => if String.eqb k' k then Some v else dict_get d' k
  end.

(** [d[k] = v]: an existing key keeps its place, a new one goes last. *)
Fixpoint dict_set (d : dict) (k : string) (v : value) : dict :=
  match d with
  | [] => [(k, v)]
  | (k', v') :: d' =>
      if String.eqb k' k then (k', v) :: d' else (k', v') :: dict_set d' k v
  end.

Definition dict_has (d : dict) (k : string) : bool :=
  match dict_get d k with Some _ => true | None => false end.

(** ** Exceptions and outcomes *)

Inductive exn_class : Type :=
| ValueError
| TypeError
| KeyError
| JSONDecodeError
| UnicodeDecodeError
| FileNotFoundError.

(** An exception: its class and its message. *)
Record exn : Type := Exn { exn_cls : exn_class; exn_msg : string }.

(** [isinstance(e, cls)], with the two subclasses of [ValueError] that occur. *)
Definition exn_isinstance (e : exn) (cls : exn_class) : bool :=
  match cls, exn_cls e with
  | ValueError, (ValueError | JSONDecodeError | UnicodeDecodeError) => true
  | TypeError, TypeError => true
  | KeyError, KeyError => true
  | JSONDecodeError, JSONDecodeError => true
  | UnicodeDecodeError, UnicodeDecodeError => true
  | FileNotFoundError, FileNotFoundError => true
  | _, _ => false
  end.

Inductive result (A : Type) : Type :=
| Returned (a : A)
| Raised (e : exn).
Arguments Returned {A} a.
Arguments Raised {A} e.

Definition is_raised {A} (r : result A) : bool :=
  match r with Raised _ => true | Returned _ => false end.

(** ** String tests used on topics *)

(** [sub in s] *)
Fixpoint contains (sub s : string) : bool :=
  if String.prefix sub s then true
  else match s with
       | EmptyString => false
       | String _ s' => contains sub s'
       end.

(** [s.endswith(suffix)] *)
Definition endswith (s suffix : string) : bool :=
  let n := String.length s in
  let m := String.length suffix in
  (m <=? n)%nat && String.eqb (String.substring (n - m) m s) suffix.

(** ** Operators on values *)

(** [isinstance(v, (int, float))]: [bool] is a subclass of [int]. *)
Definition isinstance_int_float (v : value) : bool :=
  match v with
  | VBool _ | VInt _ | VFloat _ => true
  | _ => false
  end.

Definition isinstance_bool (v : value) : bool :=
  match v with VBool _ => true | _ => false end.

Definition isinstance_list (v : value) : bool :=
  match v with VList _ => true | _ => false end.

(** [v < 0] on a number ([True] is 1 and [False] is 0). *)
Definition lt_zero (v : value) : bool :=
  match v with
  | VBool _ => false
  | VInt z => z <? 0
  | VFloat f => PrimFloat.ltb f 0%float
  | _ => false
  end.

(** [v == n] for an integer literal [n] among 0, 1, 2. *)
Definition eq_small_int (v : value) (n : Z) : bool :=
  match v with
  | VBool b => Z.b2z b =? n
  | VInt z => z =? n
  | VFloat f =>
      PrimFloat.eqb f
        (if n =? 0 then 0%float else if n =? 1 then 1%float else 2%float)
  | _ => false
  end.

(** [v in [0, 1, 2]] *)
Definition in_0_1_2 (v : value) : bool :=
  eq_small_int v 0 || eq_small_int v 1 || eq_small_int v 2.

(** [v == s] for a string literal [s]. *)
Definition eq_str (v : value) (s : string) : bool :=
  match v with VStr s' => String.eqb s' s | _ => false end.

(** [container[key]] with a string key. *)
Definition getitem (container : value) (key : string) : result value :=
  match container with
  | VDict d =>
      match dict_get d key with
      | Some v => Returned v
      | None => Raised (Exn KeyError key)
      end
  | VList _ => Raised (Exn TypeError "list indices must be integers or slices, not str")
  | VStr _ => Raised (Exn TypeError "string indices must be integers")
  | _ => Raised (Exn TypeError "object is not subscriptable")
  end.

(** [key in container] with a string key. *)
Definition py_in (key : string) (container : value) : result bool :=
  match container with
  | VDict d => Returned (dict_has d key)
  | VList l => Returned (existsb (fun v => eq_str v key) l)
  | VStr s => Returned (contains key s)
  | _ => Raised (Exn TypeError "argument is not iterable")
  end.

(** ** utils.py: the validators

    A validator looks at its argument and nothing else, so it is a function
    to an outcome. *)

Definition calib_msg : string := "calib_points must be a list of number pairs.".

(** [p[i]] for a list [p] of length 2 *)
Definition item (p : value) (i : nat) : value :=
  match p with
  | VList l => nth i l VNone
  | _ => VNone
  end.

Definition len (v : value) : nat :=
  match v with
  | VList l => List.length l
  | _ => 0%nat
  end.

(** The [for pair in calib_points] loop of [verify_calib_points]. *)
Fixpoint verify_pairs (pairs : list value) : result unit :=
  match pairs with
  | [] => Returned tt
  | p :: rest =>
      if negb (isinstance_list p) || negb (len p =? 2)%nat then
        Raised (Exn TypeError calib_msg)
      else if negb (isinstance_int_float (item p 0%nat))
              || negb (isinstance_int_float (item p 1%nat)) then
        Raised (Exn TypeError calib_msg)
      else verify_pairs rest
  end.

Definition verify_calib_points (calib_points : value) : result unit :=
  match calib_points with
  | VList pairs => verify_pairs pairs
  | _ => Raised (Exn TypeError calib_msg)
  end.

Definition check_mass_range (v : value) : result unit :=
  if negb (in_0_1_2 v) then
    Raised (Exn ValueError "Invalid mass_range value. Must be 0, 1, or 2.")
  else Returned tt.

Definition check_mz (v : value) : result unit :=
  if negb (isinstance_int_float v) || lt_zero v then
    Raised (Exn ValueError "Invalid mz value. Must be a non-negative number.")
  else Returned tt.

Definition check_dc_offset (v : value) : result unit :=
  if negb (isinstance_int_float v) then
    Raised (Exn ValueError "Invalid dc_offset value. Must be a number.")
  else Returned tt.

(** Modelled from the spec: [check_dc_offst], which the client logic imports
    from the [utils] module of its own package; that module is not among the
    sources, only the [utils.py] of the sibling package is, where the
    validator of this field is called [check_dc_offset].  The spec lists the
    field as a real number with no range to check, which is the number test
    [check_dc_offset] makes. *)
Definition check_dc_offst (v : value) : result unit := check_dc_offset v.

Definition check_dc_on (v : value) : result unit :=
  if negb (isinstance_bool v) then
    Raised (Exn ValueError "Invalid dc_on value. Must be a boolean.")
  else Returned tt.

Definition check_rod_polarity_positive (v : value) : result unit :=
  if negb (isinstance_bool v) then
    Raised (Exn ValueError "Invalid rod_polarity_positive value. Must be a boolean.")
  else Returned tt.

(** [try: verify_calib_points(value) except TypeError as e: raise ValueError(...)] *)
Definition check_calib_points_mz (v : value) : result unit :=
  match verify_calib_points v with
  | Returned tt => Returned tt
  | Raised e =>
      if exn_isinstance e TypeError then
        Raised (Exn ValueError ("Invalid calib_points_mz value. " ++ exn_msg e))
      else Raised e
  end.

Definition check_calib_points_resolution (v : value) : result unit :=
  match verify_calib_points v with
  | Returned tt => Returned tt
  | Raised e =>
      if exn_isinstance e TypeError then
        Raised (Exn ValueError ("Invalid calib_points_resolution value. " ++ exn_msg e))
      else Raised e
  end.

(** ** The engine: [self] and the world around it *)

Inductive signal : Type :=
| signal_device_status_changed
| signal_mqtt_status_changed
| signal_max_mz_changed
| signal_freq_changed
| signal_rf_amp_changed
| signal_dc1_changed
| signal_dc2_changed
| signal_current_changed
| signal_mass_range_changed
| signal_mz_changed
| signal_dc_offst_changed
| signal_dc_on_changed
| signal_rod_polarity_positive_changed
| signal_calib_points_mz_changed
| signal_calib_points_resolution_changed.

Inductive level : Type := DEBUG | INFO | WARNING.

(** A call of the logger: level, message text (a Python value formatted into
    it is left as [{}]) and the values formatted into it. *)
Definition log_record : Type := level * string * list value.

(** What a byte string is to the program: [bytes.decode] either fails or gives
    a text, and [json.loads] either rejects that text as invalid JSON or gives
    a value.  The text of a JSON document is identified with the value it
    denotes, so that [json.dumps] is [Json] and printing followed by parsing
    is the identity; the characters in between belong to the [json] module.
    A text on which [json.loads] stops in another way (an integer literal
    above the digit limit of [int], nesting beyond the recursion limit) has
    no representative here: a statement about every [text] is a statement
    about the texts [json.loads] parses or rejects with [JSONDecodeError]. *)
Inductive text : Type :=
| NotJson
| Json (v : value).

Inductive bytes : Type :=
| NotUtf8
| Utf8 (t : text).

Record engine : Type := mkEngine {
  settings : dict;                       (* self.settings *)
  is_connected : bool;                   (* self.client.is_connected() *)
  topic_base : string;                   (* self.topic_base *)
  device_name : string;                  (* self.device_name *)
  published : list (string * text);      (* calls of self.client.publish, oldest first *)
  emitted : list (signal * value);       (* calls of signal.emit, oldest first *)
  log : list log_record;                 (* calls of the logger, oldest first *)
  files : list (string * bytes)          (* the file system, newest write first *)
}.

(** The state [__init__] builds. *)
Definition init (base device : string) : engine :=
  {| settings :=
       [ ("mass_range", VInt 0);
         ("mz", VInt 0);
         ("dc_offst", VInt 0);
         ("dc_on", VBool true);
         ("rod_polarity_positive", VBool true);
         ("calib_points_mz", VList [VList [VInt 0; VInt 0]]);
         ("calib_points_resolution", VList [VList [VInt 0; VInt 0]]) ];
     is_connected := false;
     topic_base := base;
     device_name := device;
     published := [];
     emitted := [];
     log := [];
     files := [] |}.

Definition with_settings (d : dict) (s : engine) : engine :=
  mkEngine d (is_connected s) (topic_base s) (device_name s)
           (published s) (emitted s) (log s) (files s).

Definition with_connected (c : bool) (s : engine) : engine :=
  mkEngine (settings s) c (topic_base s) (device_name s)
           (published s) (emitted s) (log s) (files s).

Definition with_published (p : list (string * text)) (s : engine) : engine :=
  mkEngine (settings s) (is_connected s) (topic_base s) (device_name s)
           p (emitted s) (log s) (files s).

Definition with_emitted (e : list (signal * value)) (s : engine) : engine :=
  mkEngine (settings s) (is_connected s) (topic_base s) (device_name s)
           (published s) e (log s) (files s).

Definition with_log (l : list log_record) (s : engine) : engine :=
  mkEngine (settings s) (is_connected s) (topic_base s) (device_name s)
           (published s) (emitted s) l (files s).

Definition with_files (f : list (string * bytes)) (s : engine) : engine :=
  mkEngine (settings s) (is_connected s) (topic_base s) (device_name s)
           (published s) (emitted s) (log s) f.

(** ** Methods: state and exceptions *)

Definition M (A : Type) : Type := engine -> result A * engine.

Definition ret {A} (a : A) : M A := fun s => (Returned a, s).

Definition raise {A} (e : exn) : M A := fun s => (Raised e, s).

Definition bind {A B} (c : M A) (k : A -> M B) : M B :=
  fun s =>
    match c s with
    | (Returned a, s') => k a s'
    | (Raised e, s') => (Raised e, s')
    end.

Notation "x <- c1 ;; c2" := (bind c1 (fun x => c2))
  (at level 61, c1 at next level, right associativity).
Notation "c1 ;; c2" := (bind c1 (fun _ => c2))
  (at level 61, right associativity).

(** The outcome of an expression that touches no state. *)
Definition lift {A} (r : result A) : M A := fun s => (r, s).

(** [try: body except cls as e: handler] *)
Definition try_except {A} (body : M A) (cls : exn_class) (handler : exn -> M A) : M A :=
  fun s =>
    match body s with
    | (Returned a, s') => (Returned a, s')
    | (Raised e, s') =>
        if exn_isinstance e cls then handler e s' else (Raised e, s')
    end.

Definition logger (lvl : level) (msg : string) (args : list value) : M unit :=
  fun s => (Returned tt, with_log (log s ++ [(lvl, msg, args)]) s).

(** The argument type a signal is declared with: [pyqtSignal(str)],
    [pyqtSignal(float)], [pyqtSignal(int)], [pyqtSignal(bool)] and
    [pyqtSignal(list)]. *)
Inductive qt_type : Type := Q_str | Q_float | Q_int | Q_bool | Q_list.

Definition signal_type (sig : signal) : qt_type :=
  match sig with
  | signal_device_status_changed => Q_str
  | signal_mqtt_status_changed => Q_str
  | signal_max_mz_changed => Q_float
  | signal_freq_changed => Q_float
  | signal_rf_amp_changed => Q_float
  | signal_dc1_changed => Q_float
  | signal_dc2_changed => Q_float
  | signal_current_changed => Q_float
  | signal_mass_range_changed => Q_int
  | signal_mz_changed => Q_float
  | signal_dc_offst_changed => Q_float
  | signal_dc_on_changed => Q_bool
  | signal_rod_polarity_positive_changed => Q_bool
  | signal_calib_points_mz_changed => Q_list
  | signal_calib_points_resolution_changed => Q_list
  end.

(** An [int] that [float(z)] converts: one that rounds to a finite
    binary64 number. *)
Definition fits_double (z : Z) : bool := Z.abs z <? 2 ^ 1024 - 2 ^ 970.

(** An [int] that fits the widest C integer the conversion reads. *)
Definition fits_long (z : Z) : bool := (- 2 ^ 63 <=? z) && (z <? 2 ^ 63).

(** Whether [emit] can turn the Python value into the C++ argument of the
    signal, as PyQt5 converts the arguments of a typed signal; a value it
    cannot convert makes [emit] raise [TypeError].  A [float] argument is read as a Python number is read as a
    [float]; an [int] or [bool] argument is read as an integer, which a
    Python [float] is not (Python 3.10 and later); a [list] argument must be
    a [list] and a [str] argument a [str]. *)
Definition converts (t : qt_type) (v : value) : bool :=
  match t, v with
  | Q_str, VStr _ => true
  | Q_float, VFloat _ => true
  | Q_float, VBool _ => true
  | Q_float, VInt z => fits_double z
  | Q_int, VBool _ => true
  | Q_int, VInt z => fits_long z
  | Q_bool, VBool _ => true
  | Q_bool, VInt z => fits_long z
  | Q_list, VList _ => true
  | _, _ => false
  end.

Definition signal_accepts (sig : signal) (v : value) : bool :=
  converts (signal_type sig) v.

(** The exception of an [emit] whose argument the signal cannot take. *)
Definition emit_error : exn :=
  Exn TypeError "emit(): argument 1 has unexpected type".

(** [sig.emit(v)]: a value the signal takes is recorded as it was passed;
    for any other value [emit] raises [TypeError] and nobody is notified. *)
Definition emit (sig : signal) (v : value) : M unit :=
  fun s =>
    if signal_accepts sig v
    then (Returned tt, with_emitted (emitted s ++ [(sig, v)]) s)
    else (Raised emit_error, s).

(** [self.settings[k] = v] *)
Definition settings_setitem (k : string) (v : value) : M unit :=
  fun s => (Returned tt, with_settings (dict_set (settings s) k v) s).

(** [self.client.publish(topic, payload)] *)
Definition client_publish (topic : string) (payload : text) : M unit :=
  fun s => (Returned tt, with_published (published s ++ [(topic, payload)]) s).

(** [json.dumps(v)] *)
Definition json_dumps (v : value) : text := Json v.

(** [f"{self.topic_base}/cmnd/{self.device_name}/<code>"] *)
Definition cmnd_topic (code : string) : M string :=
  fun s => (Returned (topic_base s ++ "/cmnd/" ++ device_name s ++ "/" ++ code), s).

(** The decorator [client_connected]. *)
Definition client_connected (func : M value) : M value :=
  fun s =>
    if negb (is_connected s) then
      (logger WARNING "Client is not connected" [] ;; ret VNone) s
    else func s.

(** The decorator [log_func]; [args] are the arguments after [self]. *)
Definition log_func {A} (name : string) (args : list value) (func : M A) : M A :=
  logger DEBUG ("Calling " ++ name ++ " with args: {}, kwargs: {}") args ;;
  func.

(** ** The publish methods *)

Definition publish_mass_range (range : value) : M value :=
  client_connected (log_func "publish_mass_range" [range] (
    lift (check_mass_range range) ;;
    settings_setitem "mass_range" range ;;
    t <- cmnd_topic "range" ;;
    client_publish t (json_dumps (VDict [("value", range)])) ;;
    ret VNone)).

Definition publish_mz (mz : value) : M value :=
  client_connected (log_func "publish_mz" [mz] (
    lift (check_mz mz) ;;
    settings_setitem "mz" mz ;;
    t <- cmnd_topic "mz" ;;
    client_publish t (json_dumps (VDict [("value", mz)])) ;;
    ret VNone)).

Definition publish_dc_offst (dc_offst : value) : M value :=
  client_connected (log_func "publish_dc_offst" [dc_offst] (
    lift (check_dc_offst dc_offst) ;;
    settings_setitem "dc_offst" dc_offst ;;
    t <- cmnd_topic "dc_offst" ;;
    client_publish t (json_dumps (VDict [("value", dc_offst)])) ;;
    ret VNone)).

Definition publish_dc_on (dc_on : value) : M value :=
  client_connected (log_func "publish_dc_on" [dc_on] (
    lift (check_dc_on dc_on) ;;
    settings_setitem "dc_on" dc_on ;;
    t <- cmnd_topic "is_dc_on" ;;
    client_publish t (json_dumps (VDict [("value", dc_on)])) ;;
    ret VNone)).

Definition publish_rod_polarity_positive (rod_polarity_positive : value) : M value :=
  client_connected (log_func "publish_rod_polarity_positive" [rod_polarity_positive] (
    lift (check_rod_polarity_positive rod_polarity_positive) ;;
    settings_setitem "rod_polarity_positive" rod_polarity_positive ;;
    t <- cmnd_topic "is_rod_polarity_positive" ;;
    client_publish t (json_dumps (VDict [("value", rod_polarity_positive)])) ;;
    ret VNone)).

Definition publish_calib_points_mz (calib_points_mz : value) : M value :=
  client_connected (log_func "publish_calib_points_mz" [calib_points_mz] (
    lift (verify_calib_points calib_points_mz) ;;
    settings_setitem "calib_points_mz" calib_points_mz ;;
    t <- cmnd_topic "calib_pnts_rf" ;;
    client_publish t (json_dumps (VDict [("value", calib_points_mz)])) ;;
    ret VNone)).

Definition publish_calib_points_resolution (calib_points_resolution : value) : M value :=
  client_connected (log_func "publish_calib_points_resolution" [calib_points_resolution] (
    lift (verify_calib_points calib_points_resolution) ;;
    settings_setitem "calib_points_resolution" calib_points_resolution ;;
    t <- cmnd_topic "calib_pnts_dc" ;;
    client_publish t (json_dumps (VDict [("value", calib_points_resolution)])) ;;
    ret VNone)).

(** ** The request methods *)

Definition request_device_state : M value :=
  client_connected (log_func "request_device_state" [] (
    t <- cmnd_topic "state" ;;
    client_publish t (json_dumps (VDict [])) ;;
    ret VNone)).

Definition request_dc_offst : M value :=
  client_connected (log_func "request_dc_offst" [] (
    t <- cmnd_topic "dc_offst" ;;
    client_publish t (json_dumps (VDict [])) ;;
    ret VNone)).

Definition request_calib_points_mz : M value :=
  client_connected (log_func "request_calib_points_mz" [] (
    t <- cmnd_topic "calib_pnts_rf" ;;
    client_publish t (json_dumps (VDict [])) ;;
    ret VNone)).

Definition request_calib_points_resolution : M value :=
  client_connected (log_func "request_calib_points_resolution" [] (
    t <- cmnd_topic "calib_pnts_dc" ;;
    client_publish t (json_dumps (VDict [])) ;;
    ret VNone)).

(** ** The handlers of inbound messages *)

Record message : Type := Message { msg_topic : string; msg_payload : bytes }.

(** [message.payload.decode()] *)
Definition bytes_decode (b : bytes) : result text :=
  match b with
  | NotUtf8 => Raised (Exn UnicodeDecodeError "'utf-8' codec can't decode byte")
  | Utf8 t => Returned t
  end.

(** [json.loads(s)] on a text it parses, or rejects as invalid JSON. *)
Definition json_loads (t : text) : result value :=
  match t with
  | NotJson => Raised (Exn JSONDecodeError "Expecting value")
  | Json v => Returned v
  end.

Definition handle_device_connected (m : message) : M value :=
  logger INFO "Device connected" [] ;;
  emit signal_device_status_changed (VStr "connected") ;;
  request_device_state ;;
  request_dc_offst ;;
  request_calib_points_mz ;;
  request_calib_points_resolution ;;
  ret VNone.

Definition handle_device_error (m : message) : M value :=
  logger WARNING "Device error: {}" [] ;;
  emit signal_device_status_changed (VStr "IO error") ;;
  ret VNone.

(** [if key in payload: body] *)
Definition if_in (key : string) (payload : value) (body : M unit) : M unit :=
  b <- lift (py_in key payload) ;;
  if b then body else ret tt.

(** [sig.emit(payload[key]); logger.debug(f"<label>: {payload[key]}")] *)
Definition forward (sig : signal) (payload : value) (key label : string) : M unit :=
  v <- lift (getitem payload key) ;;
  emit sig v ;;
  v <- lift (getitem payload key) ;;
  logger DEBUG (label ++ ": {}") [v].

Definition handle_device_state (payload : value) : M value :=
  log_func "handle_device_state" [payload] (
    if_in "range" payload (
      try_except (
        v <- lift (getitem payload "range") ;;
        lift (check_mass_range v) ;;
        v <- lift (getitem payload "range") ;;
        settings_setitem "mass_range" v ;;
        v <- lift (getitem payload "range") ;;
        emit signal_mass_range_changed v ;;
        v <- lift (getitem payload "range") ;;
        logger DEBUG "Mass range: {}" [v])
      ValueError (fun e => logger DEBUG (exn_msg e) [])) ;;
    if_in "frequency" payload
      (forward signal_freq_changed payload "frequency" "Frequency") ;;
    if_in "rf_amp" payload
      (forward signal_rf_amp_changed payload "rf_amp" "RF amplitude") ;;
    if_in "dc1" payload
      (forward signal_dc1_changed payload "dc1" "DC1") ;;
    if_in "dc2" payload
      (forward signal_dc2_changed payload "dc2" "DC2") ;;
    if_in "current" payload
      (forward signal_current_changed payload "current" "Current") ;;
    if_in "mz" payload
      (forward signal_mz_changed payload "mz" "m/z") ;;
    if_in "dc_offst" payload
      (forward signal_dc_offst_changed payload "dc_offst" "DC offset") ;;
    if_in "is_dc_on" payload
      (forward signal_dc_on_changed payload "is_dc_on" "DC power on") ;;
    if_in "is_rod_polarity_positive" payload
      (forward signal_rod_polarity_positive_changed payload
               "is_rod_polarity_positive" "Rod polarity positive") ;;
    if_in "max_mz" payload
      (forward signal_max_mz_changed payload "max_mz" "Max m/z") ;;
    ret VNone).

(** The body shared by the per-field handlers:
    [try: check(payload["value"]); self.settings[key] = payload["value"];
          sig.emit(payload["value"])
     except ValueError as e: logger.debug(e)] *)
Definition validated_update (check : value -> result unit) (key : string)
    (sig : signal) (payload : value) : M unit :=
  try_except (
    v <- lift (getitem payload "value") ;;
    lift (check v) ;;
    v <- lift (getitem payload "value") ;;
    settings_setitem key v ;;
    v <- lift (getitem payload "value") ;;
    emit sig v)
  ValueError (fun e => logger DEBUG (exn_msg e) []).

Definition handle_range (payload : value) : M value :=
  log_func "handle_range" [payload] (
    validated_update check_mass_range "mass_range" signal_mass_range_changed payload ;;
    ret VNone).

Definition handle_mz (payload : value) : M value :=
  log_func "handle_mz" [payload] (
    validated_update check_mz "mz" signal_mz_changed payload ;;
    ret VNone).

Definition handle_dc_offst (payload : value) : M value :=
  log_func "handle_dc_offst" [payload] (
    validated_update check_dc_offst "dc_offst" signal_dc_offst_changed payload ;;
    ret VNone).

Definition handle_dc_on (payload : value) : M value :=
  log_func "handle_dc_on" [payload] (
    validated_update check_dc_on "dc_on" signal_dc_on_changed payload ;;
    ret VNone).

Definition handle_rod_polarity_positive (payload : value) : M value :=
  log_func "handle_rod_polarity_positive" [payload] (
    validated_update check_rod_polarity_positive "rod_polarity_positive"
                     signal_rod_polarity_positive_changed payload ;;
    ret VNone).

Definition handle_calib_points_mz (payload : value) : M value :=
  log_func "handle_calib_points_mz" [payload] (
    validated_update verify_calib_points "calib_points_mz"
                     signal_calib_points_mz_changed payload ;;
    ret VNone).

Definition handle_calib_points_resolution (payload : value) : M value :=
  log_func "handle_calib_points_resolution" [payload] (
    validated_update verify_calib_points "calib_points_resolution"
                     signal_calib_points_resolution_changed payload ;;
    ret VNone).

Definition handle_max_mz (payload : value) : M value :=
  log_func "handle_max_mz" [payload] (
    v <- lift (getitem payload "value") ;;
    emit signal_max_mz_changed v ;;
    ret VNone).

(** ** The router *)

Definition on_message (m : message) : M value :=
  let topic := msg_topic m in
  logger DEBUG ("Received message on topic " ++ topic) [] ;;
  payload <- try_except
               (s <- lift (bytes_decode (msg_payload m)) ;; lift (json_loads s))
               JSONDecodeError
               (fun e =>
                  logger DEBUG ("Error decoding message payload: " ++ exn_msg e) [] ;;
                  ret (VDict [])) ;;
  logger DEBUG ("Received message on topic " ++ topic ++ " with payload {}") [payload] ;;
  if contains "/connected/" topic then handle_device_connected m
  else if contains "/error/" topic then handle_device_error m
  else if endswith topic "state" then handle_device_state payload
  else if endswith topic "range" then handle_range payload
  else if endswith topic "mz" then handle_mz payload
  else if endswith topic "dc_offst" then handle_dc_offst payload
  else if endswith topic "dc_on" then handle_dc_on payload
  else if endswith topic "rod_polarity_positive" then handle_rod_polarity_positive payload
  else if endswith topic "calib_points_mz" then handle_calib_points_mz payload
  else if endswith topic "calib_points_resolution" then handle_calib_points_resolution payload
  else if endswith topic "max_mz" then handle_max_mz payload
  else ret VNone.

(** ** Settings files *)

Fixpoint file_lookup (fs : list (string * bytes)) (name : string) : option bytes :=
  match fs with
  | [] => None
  | (n, b) :: fs' => if String.eqb n name then Some b else file_lookup fs' name
  end.

(** [open(name, "r")] followed by [json.load(f)] *)
Definition json_load_file (name : string) : M value :=
  fun s =>
    match file_lookup (files s) name with
    | None => (Raised (Exn FileNotFoundError name), s)
    | Some b => (s' <- lift (bytes_decode b) ;; lift (json_loads s')) s
    end.

(** [open(name, "w")] followed by [json.dump(v, f)], for a [name] that
    [open] can create or truncate: the file then holds the document.  A
    path [open] refuses (a missing directory, no permission, the empty
    name) is outside the model, and what is stated of a save is stated of
    a save that wrote its file. *)
Definition json_dump_file (v : value) (name : string) : M unit :=
  fun s => (Returned tt, with_files ((name, Utf8 (json_dumps v)) :: files s) s).

(** [self.settings = settings].  Every use is behind
    [settings["mass_range"]] having returned, which only a [dict] allows. *)
Definition settings_assign (v : value) : M unit :=
  fun s =>
    match v with
    | VDict d => (Returned tt, with_settings d s)
    | _ => (Raised (Exn TypeError "object is not subscriptable"), s)
    end.

(** [self.settings], the object [settings] names once it has been assigned. *)
Definition settings_object : M value :=
  fun s => (Returned (VDict (settings s)), s).

Definition load_settings (json_file_name : string) : M value :=
  settings <- json_load_file json_file_name ;;
  v <- lift (getitem settings "mass_range") ;; lift (check_mass_range v) ;;
  v <- lift (getitem settings "mz") ;; lift (check_mz v) ;;
  v <- lift (getitem settings "dc_offst") ;; lift (check_dc_offst v) ;;
  v <- lift (getitem settings "dc_on") ;; lift (check_dc_on v) ;;
  v <- lift (getitem settings "rod_polarity_positive") ;;
  lift (check_rod_polarity_positive v) ;;
  v <- lift (getitem settings "calib_points_mz") ;;
  lift (check_calib_points_mz v) ;;
  v <- lift (getitem settings "calib_points_resolution") ;;
  lift (check_calib_points_resolution v) ;;
  settings_assign settings ;;
  (* from here on [settings] and [self.settings] are one object *)
  settings <- settings_object ;;
  v <- lift (getitem settings "mass_range") ;; publish_mass_range v ;;
  settings <- settings_object ;;
  v <- lift (getitem settings "mz") ;; publish_mz v ;;
  settings <- settings_object ;;
  v <- lift (getitem settings "dc_offst") ;; publish_dc_offst v ;;
  settings <- settings_object ;;
  v <- lift (getitem settings "dc_on") ;; publish_dc_on v ;;
  settings <- settings_object ;;
  v <- lift (getitem settings "rod_polarity_positive") ;;
  publish_rod_polarity_positive v ;;
  settings <- settings_object ;;
  v <- lift (getitem settings "calib_points_mz") ;; publish_calib_points_mz v ;;
  settings <- settings_object ;;
  v <- lift (getitem settings "calib_points_resolution") ;;
  publish_calib_points_resolution v ;;
  ret VNone.

Definition save_settings (json_file_name : string) : M value :=
  settings <- settings_object ;;
  json_dump_file settings json_file_name ;;
  ret VNone.

(** * The vocabulary of the properties

    Names for the seven settings fields and what the code attaches to each,
    the branches of the router, the state a report leaves behind, and the
    concrete engines and messages the properties are tried on. *)

(** ** The seven settings fields *)

Inductive field : Type :=
| F_mass_range
| F_mz
| F_dc_offst
| F_dc_on
| F_rod_polarity_positive
| F_calib_points_mz
| F_calib_points_resolution.

Definition all_fields : list field :=
  [F_mass_range; F_mz; F_dc_offst; F_dc_on; F_rod_polarity_positive;
   F_calib_points_mz; F_calib_points_resolution].

(** The key of a field in [self.settings] and in a settings file. *)
Definition field_key (F : field) : string :=
  match F with
  | F_mass_range => "mass_range"
  | F_mz => "mz"
  | F_dc_offst => "dc_offst"
  | F_dc_on => "dc_on"
  | F_rod_polarity_positive => "rod_polarity_positive"
  | F_calib_points_mz => "calib_points_mz"
  | F_calib_points_resolution => "calib_points_resolution"
  end.

(** The last segment of the command topic of a field. *)
Definition field_code (F : field) : string :=
  match F with
  | F_mass_range => "range"
  | F_mz => "mz"
  | F_dc_offst => "dc_offst"
  | F_dc_on => "is_dc_on"
  | F_rod_polarity_positive => "is_rod_polarity_positive"
  | F_calib_points_mz => "calib_pnts_rf"
  | F_calib_points_resolution => "calib_pnts_dc"
  end.

(** The validator the publish method and the handler of a field call. *)
Definition validator (F : field) : value -> result unit :=
  match F with
  | F_mass_range => check_mass_range
  | F_mz => check_mz
  | F_dc_offst => check_dc_offst
  | F_dc_on => check_dc_on
  | F_rod_polarity_positive => check_rod_polarity_positive
  | F_calib_points_mz => verify_calib_points
  | F_calib_points_resolution => verify_calib_points
  end.

(** The validator [load_settings] calls. *)
Definition load_validator (F : field) : value -> result unit :=
  match F with
  | F_calib_points_mz => check_calib_points_mz
  | F_calib_points_resolution => check_calib_points_resolution
  | _ => validator F
  end.

Definition field_signal (F : field) : signal :=
  match F with
  | F_mass_range => signal_mass_range_changed
  | F_mz => signal_mz_changed
  | F_dc_offst => signal_dc_offst_changed
  | F_dc_on => signal_dc_on_changed
  | F_rod_polarity_positive => signal_rod_polarity_positive_changed
  | F_calib_points_mz => signal_calib_points_mz_changed
  | F_calib_points_resolution => signal_calib_points_resolution_changed
  end.

Definition publish (F : field) : value -> M value :=
  match F with
  | F_mass_range => publish_mass_range
  | F_mz => publish_mz
  | F_dc_offst => publish_dc_offst
  | F_dc_on => publish_dc_on
  | F_rod_polarity_positive => publish_rod_polarity_positive
  | F_calib_points_mz => publish_calib_points_mz
  | F_calib_points_resolution => publish_calib_points_resolution
  end.

Definition handler (F : field) : value -> M value :=
  match F with
  | F_mass_range => handle_range
  | F_mz => handle_mz
  | F_dc_offst => handle_dc_offst
  | F_dc_on => handle_dc_on
  | F_rod_polarity_positive => handle_rod_polarity_positive
  | F_calib_points_mz => handle_calib_points_mz
  | F_calib_points_resolution => handle_calib_points_resolution
  end.

(** ** Outbound operations *)

(** The topic [{base}/cmnd/{device}/<code>] of an engine. *)
Definition command_topic (s : engine) (code : string) : string :=
  topic_base s ++ "/cmnd/" ++ device_name s ++ "/" ++ code.

Definition not_connected_record : log_record :=
  (WARNING, "Client is not connected", []).

(** The body every publish method has under its decorators. *)
Definition publish_body (check : value -> result unit) (key code : string)
    (v : value) : M value :=
  lift (check v) ;;
  settings_setitem key v ;;
  t <- cmnd_topic code ;;
  client_publish t (json_dumps (VDict [("value", v)])) ;;
  ret VNone.

Definition publish_name (F : field) : string := "publish_" ++ field_key F.

Definition calling_record (name : string) (args : list value) : log_record :=
  (DEBUG, "Calling " ++ name ++ " with args: {}, kwargs: {}", args).

(** A fresh engine whose transport session is established. *)
Definition online : engine := with_connected true (init "qsource3" "dev").

(** A fresh engine with no transport session. *)
Definition offline : engine := init "qsource3" "dev".

(** ** The router *)

Inductive branch : Type :=
| B_connected
| B_error
| B_state
| B_field (F : field)
| B_max_mz
| B_ignored.

(** The tests of [on_message], in its order. *)
Definition route (topic : string) : branch :=
  if contains "/connected/" topic then B_connected
  else if contains "/error/" topic then B_error
  else if endswith topic "state" then B_state
  else if endswith topic "range" then B_field F_mass_range
  else if endswith topic "mz" then B_field F_mz
  else if endswith topic "dc_offst" then B_field F_dc_offst
  else if endswith topic "dc_on" then B_field F_dc_on
  else if endswith topic "rod_polarity_positive" then B_field F_rod_polarity_positive
  else if endswith topic "calib_points_mz" then B_field F_calib_points_mz
  else if endswith topic "calib_points_resolution" then B_field F_calib_points_resolution
  else if endswith topic "max_mz" then B_max_mz
  else B_ignored.

Definition dispatch (b : branch) (m : message) (payload : value) : M value :=
  match b with
  | B_connected => handle_device_connected m
  | B_error => handle_device_error m
  | B_state => handle_device_state payload
  | B_field F => handler F payload
  | B_max_mz => handle_max_mz payload
  | B_ignored => ret VNone
  end.

(** What [on_message] does before it looks at the topic. *)
Definition received (m : message) : M value :=
  logger DEBUG ("Received message on topic " ++ msg_topic m) [] ;;
  payload <- try_except
               (s <- lift (bytes_decode (msg_payload m)) ;; lift (json_loads s))
               JSONDecodeError
               (fun e =>
                  logger DEBUG ("Error decoding message payload: " ++ exn_msg e) [] ;;
                  ret (VDict [])) ;;
  logger DEBUG ("Received message on topic " ++ msg_topic m ++ " with payload {}")
         [payload] ;;
  ret payload.

(** The log records [received] leaves for a payload it could read. *)
Definition received_log (m : message) (payload : value) : list log_record :=
  [ (DEBUG, "Received message on topic " ++ msg_topic m, []);
    (DEBUG, "Received message on topic " ++ msg_topic m ++ " with payload {}",
     [payload]) ].

(** The log records [received] leaves for a text that is not JSON. *)
Definition received_log_not_json (m : message) : list log_record :=
  [ (DEBUG, "Received message on topic " ++ msg_topic m, []);
    (DEBUG, "Error decoding message payload: Expecting value", []);
    (DEBUG, "Received message on topic " ++ msg_topic m ++ " with payload {}",
     [VDict []]) ].

Definition handler_name (F : field) : string :=
  match F with
  | F_mass_range => "handle_range"
  | _ => "handle_" ++ field_key F
  end.

(** The fields whose validator raises [ValueError]. *)
Definition scalar (F : field) : bool :=
  match F with
  | F_calib_points_mz | F_calib_points_resolution => false
  | _ => true
  end.

(** ** The bulk state report *)

Definition passes (r : result unit) : bool := negb (is_raised r).

Definition opt_emission (sig : signal) (o : option value) : list (signal * value) :=
  match o with
  | Some v => [(sig, v)]
  | None => []
  end.

(** What a state report with record [d] does to the mirror. *)
Definition state_report_settings (d : dict) (mirror : dict) : dict :=
  match dict_get d "range" with
  | Some v => if passes (check_mass_range v) then dict_set mirror "mass_range" v else mirror
  | None => mirror
  end.

(** The notifications a state report with record [d] raises, in order. *)
Definition state_report_emissions (d : dict) : list (signal * value) :=
  (match dict_get d "range" with
   | Some v => if passes (check_mass_range v) then [(signal_mass_range_changed, v)] else []
   | None => []
   end
   ++ opt_emission signal_freq_changed (dict_get d "frequency")
   ++ opt_emission signal_rf_amp_changed (dict_get d "rf_amp")
   ++ opt_emission signal_dc1_changed (dict_get d "dc1")
   ++ opt_emission signal_dc2_changed (dict_get d "dc2")
   ++ opt_emission signal_current_changed (dict_get d "current")
   ++ opt_emission signal_mz_changed (dict_get d "mz")
   ++ opt_emission signal_dc_offst_changed (dict_get d "dc_offst")
   ++ opt_emission signal_dc_on_changed (dict_get d "is_dc_on")
   ++ opt_emission signal_rod_polarity_positive_changed
        (dict_get d "is_rod_polarity_positive")
   ++ opt_emission signal_max_mz_changed (dict_get d "max_mz"))%list.

(** Whether the signal of a notification takes its value. *)
Definition accepted (n : signal * value) : bool :=
  signal_accepts (fst n) (snd n).

(** The notifications of [l] that are raised before [emit] refuses one. *)
Fixpoint accepted_prefix (l : list (signal * value)) : list (signal * value) :=
  match l with
  | [] => []
  | n :: l' => if accepted n then n :: accepted_prefix l' else []
  end.

(** [c] applies [f] to the mirror and makes the emissions [l] in order: it
    returns [a] when every signal takes its value and stops with the
    [TypeError] of [emit] at the first one that does not; it publishes
    nothing. *)
Definition emits {A} (f : dict -> dict) (l : list (signal * value)) (a : A)
    (c : M A) : Prop :=
  forall s,
    settings (snd (c s)) = f (settings s) /\
    published (snd (c s)) = published s /\
    emitted (snd (c s)) = (emitted s ++ accepted_prefix l)%list /\
    (forallb accepted l = true -> fst (c s) = Returned a) /\
    (forallb accepted l = false -> fst (c s) = Raised emit_error).

(** ** Inbound messages the properties are tried on *)

(** A report of calibration points for the resolution curve whose second
    pair has a string in it. *)
Definition malformed_calib_value : value :=
  VList [VList [VInt 1; VInt 2]; VList [VStr "a"; VInt 3]].

Definition malformed_calib_report : message :=
  Message "qsource3/response/dev/calib_points_resolution"
          (Utf8 (Json (VDict [("value", malformed_calib_value)]))).

(** A per-field report for mz whose payload is text but not JSON. *)
Definition undecodable_mz_report : message :=
  Message "qsource3/response/dev/mz" (Utf8 NotJson).

(** A per-field report for mz whose payload is the empty JSON record. *)
Definition empty_record_mz_report : message :=
  Message "qsource3/response/dev/mz" (Utf8 (Json (VDict []))).

(** A report whose payload is a byte string that is not UTF-8. *)
Definition not_utf8_mz_report : message :=
  Message "qsource3/response/dev/mz" NotUtf8.

(** A per-field report of the telemetry value max_mz. *)
Definition max_mz_report : message :=
  Message "qsource3/response/dev/max_mz" (Utf8 (Json (VDict [("value", VInt 500)]))).


(** A per-field report for mz with the value 7. *)
Definition mz_report : message :=
  Message "qsource3/response/dev/mz" (Utf8 (Json (VDict [("value", VInt 7)]))).

(** ** The resync sequence *)

(** The four requests, in the order [handle_device_connected] makes them. *)
Definition resync_sequence (s : engine) : list (string * text) :=
  [ (command_topic s "state", Json (VDict []));
    (command_topic s "dc_offst", Json (VDict []));
    (command_topic s "calib_pnts_rf", Json (VDict []));
    (command_topic s "calib_pnts_dc", Json (VDict [])) ].

(** The transport handing a sequence of messages to [on_message], one after
    the other. *)
Fixpoint deliver (ms : list message) : M unit :=
  match ms with
  | [] => ret tt
  | m :: ms' => on_message m ;; deliver ms'
  end.

(** A message the router classifies as device-connected: the topic holds
    [/connected/] and the payload is text, JSON or not. *)
Definition device_connected_event (m : message) : bool :=
  contains "/connected/" (msg_topic m)
  && match msg_payload m with NotUtf8 => false | Utf8 _ => true end.

(** Two device-connected events in a row. *)
Definition two_connected_events : list message :=
  [ Message "qsource3/connected/dev" (Utf8 (Json (VStr "online")));
    Message "qsource3/connected/dev" (Utf8 (Json (VStr "online"))) ].

(** ** Snapshots *)

(** Field [F] of a snapshot is there and passes the validator
    [load_settings] calls for it. *)
Definition field_passes (doc : value) (F : field) : bool :=
  match getitem doc (field_key F) with
  | Returned v => passes (load_validator F v)
  | Raised _ => false
  end.

(** The checks of [load_settings], field after field. *)
Fixpoint check_fields (doc : value) (Fs : list field) : result unit :=
  match Fs with
  | [] => Returned tt
  | F :: Fs' =>
      match getitem doc (field_key F) with
      | Raised e => Raised e
      | Returned v =>
          match load_validator F v with
          | Raised e => Raised e
          | Returned _ => check_fields doc Fs'
          end
      end
  end.

(** [load_settings] from [self.settings = settings] on. *)
Definition load_publish (doc : value) : M value :=
  settings_assign doc ;;
  settings <- settings_object ;;
  v <- lift (getitem settings "mass_range") ;; publish_mass_range v ;;
  settings <- settings_object ;;
  v <- lift (getitem settings "mz") ;; publish_mz v ;;
  settings <- settings_object ;;
  v <- lift (getitem settings "dc_offst") ;; publish_dc_offst v ;;
  settings <- settings_object ;;
  v <- lift (getitem settings "dc_on") ;; publish_dc_on v ;;
  settings <- settings_object ;;
  v <- lift (getitem settings "rod_polarity_positive") ;;
  publish_rod_polarity_positive v ;;
  settings <- settings_object ;;
  v <- lift (getitem settings "calib_points_mz") ;; publish_calib_points_mz v ;;
  settings <- settings_object ;;
  v <- lift (getitem settings "calib_points_resolution") ;;
  publish_calib_points_resolution v ;;
  ret VNone.

(** The outcome of a load that went through: it returned, the mirror is
    [d], and neither the files nor the notifications of [s] changed. *)
Definition loaded (d : dict) (s : engine) (r : result value * engine) : Prop :=
  fst r = Returned VNone /\
  settings (snd r) = d /\
  files (snd r) = files s /\
  emitted (snd r) = emitted s.

(** A snapshot with a calibration curve of two points. *)
Definition good_snapshot : dict :=
  [ ("mass_range", VInt 2);
    ("mz", VFloat 28.5%float);
    ("dc_offst", VFloat (-0.25)%float);
    ("dc_on", VBool false);
    ("rod_polarity_positive", VBool true);
    ("calib_points_mz", VList [VList [VInt 0; VInt 0]; VList [VInt 100; VFloat 99.5%float]]);
    ("calib_points_resolution", VList [VList [VInt 0; VInt 1]]) ].

(** The same snapshot with a negative mz. *)
Definition bad_snapshot : dict := dict_set good_snapshot "mz" (VInt (-1)).

(** A connected engine that finds both snapshots on disk. *)
Definition with_snapshots : engine :=
  with_files [ ("good.json", Utf8 (Json (VDict good_snapshot)));
               ("bad.json", Utf8 (Json (VDict bad_snapshot))) ] online.

(** A connected engine whose mirror holds [good_snapshot]. *)
Definition holding_snapshot : engine := with_settings good_snapshot online.

(** The branches of [on_message] that an earlier test always takes the
    topic away from. *)
Definition shadowed (b : branch) : bool :=
  match b with
  | B_max_mz | B_field F_calib_points_mz => true
  | _ => false
  end.

(** The telemetry keys of a state report and the signal each is raised on. *)
Definition telemetry_keys : list (string * signal) :=
  [ ("frequency", signal_freq_changed);
    ("rf_amp", signal_rf_amp_changed);
    ("dc1", signal_dc1_changed);
    ("dc2", signal_dc2_changed);
    ("current", signal_current_changed);
    ("max_mz", signal_max_mz_changed) ].

(** A state report with two telemetry values and an mz. *)
Definition telemetry_report : message :=
  Message "qsource3/status/dev/state"
          (Utf8 (Json (VDict [("frequency", VFloat 1.5%float);
                              ("max_mz", VInt 500);
                              ("mz", VInt 28)]))).

(** ** Sequences of calls *)

(** The mirror holds all seven fields and each passes its validator. *)
Definition valid_mirror (d : dict) : bool :=
  forallb (field_passes (VDict d)) all_fields.

(** What can happen to an engine: the transport delivers a message, the
    front-end calls a publish, request, load or save method, the transport
    session goes up or down, or a file appears on disk. *)
Inductive operation : Type :=
| Op_message (m : message)
| Op_publish (F : field) (v : value)
| Op_request_device_state
| Op_request_dc_offst
| Op_request_calib_points_mz
| Op_request_calib_points_resolution
| Op_load_settings (name : string)
| Op_save_settings (name : string)
| Op_session (up : bool)
| Op_file (name : string) (content : bytes).

Definition perform (o : operation) : M value :=
  match o with
  | Op_message m => on_message m
  | Op_publish F v => publish F v
  | Op_request_device_state => request_device_state
  | Op_request_dc_offst => request_dc_offst
  | Op_request_calib_points_mz => request_calib_points_mz
  | Op_request_calib_points_resolution => request_calib_points_resolution
  | Op_load_settings name => load_settings name
  | Op_save_settings name => save_settings name
  | Op_session up => fun s => (Returned VNone, with_connected up s)
  | Op_file name content =>
      fun s => (Returned VNone, with_files ((name, content) :: files s) s)
  end.

(** The engine after a sequence of calls.  A call that raises leaves the
    engine in the state it had reached, and the next call finds it there; a
    caller that stops at the first exception sees a prefix of the
    sequence. *)
Fixpoint run (ops : list operation) (s : engine) : engine :=
  match ops with
  | [] => s
  | o :: ops' => run ops' (snd (perform o s))
  end.

(** [c] keeps the property [I] of the engine, whatever its outcome, and
    raises only exceptions in [E]. *)
Definition keeps {A} (I : engine -> Prop) (E : exn -> Prop) (c : M A) : Prop :=
  forall s, I s ->
    I (snd (c s)) /\ (forall e, fst (c s) = Raised e -> E e).

(** The classes of the exceptions that leave [on_message]. *)
Definition router_exn (c : exn_class) : bool :=
  match c with
  | KeyError | TypeError | UnicodeDecodeError => true
  | _ => false
  end.

(** ** Calibration curves and loaded snapshots *)

(** A list of exactly two numbers. *)
Definition number_pair (p : value) : bool :=
  match p with
  | VList [a; b] => isinstance_int_float a && isinstance_int_float b
  | _ => false
  end.

(** A list, possibly empty, of number pairs. *)
Definition pair_list (v : value) : bool :=
  match v with
  | VList l => forallb number_pair l
  | _ => false
  end.

(** The message a publish of field [F] sends for the value the record [d]
    holds under the key of [F]. *)
Definition field_message (s : engine) (d : dict) (F : field) : string * text :=
  (command_topic s (field_code F),
   Json (VDict [("value", match dict_get d (field_key F) with
                          | Some v => v
                          | None => VNone
                          end)])).

(** The seven messages of a loaded snapshot, in the order [load_settings]
    publishes them. *)
Definition snapshot_messages (s : engine) (d : dict) : list (string * text) :=
  map (field_message s d) all_fields.

(** A state of [load_settings] between two of its publish calls: the mirror
    is [d], [pubs] is what has been published, and the rest of the engine is
    that of [s0]. *)
Definition loading (d : dict) (s0 : engine) (pubs : list (string * text))
    (st : engine) : Prop :=
  settings st = d /\ published st = pubs /\ emitted st = emitted s0 /\
  is_connected st = is_connected s0 /\ topic_base st = topic_base s0 /\
  device_name st = device_name s0.

(** ** The front-end: [qsource3_mqtt_gui.py]

    The slots of [QSource3_MQTT_GUI] that call the client logic.  The window
    is the client logic together with what the slots show: the style sheet
    of the two calibration text fields and the message boxes opened.  What a
    dialog returns (the file name chosen, the answer to a question) is an
    argument of the slot. *)

Module Gui.

Definition COLOR_VALID : string := "color: black".
Definition COLOR_INVALID : string := "color: red".

Inductive line_edit : Type :=
| txt_calib_points_mz_value
| txt_calib_points_resolution_value.

Record window : Type := mkWindow {
  client_logic : engine;                    (* self.client_logic *)
  style_calib_points_mz : string;           (* style sheet of txt_calib_points_mz_value *)
  style_calib_points_resolution : string;   (* style sheet of txt_calib_points_resolution_value *)
  message_boxes : list (string * string);   (* QMessageBox calls: title, text *)
  gui_log : list log_record                 (* calls of the module's logger *)
}.

Definition G (A : Type) : Type := window -> result A * window.

Definition gret {A} (a : A) : G A := fun w => (Returned a, w).

Definition gbind {A B} (c : G A) (k : A -> G B) : G B :=
  fun w =>
    match c w with
    | (Returned a, w') => k a w'
    | (Raised e, w') => (Raised e, w')
    end.

Declare Scope gui_scope.
Notation "x <- c1 ;; c2" := (gbind c1 (fun x => c2))
  (at level 61, c1 at next level, right associativity) : gui_scope.
Notation "c1 ;; c2" := (gbind c1 (fun _ => c2))
  (at level 61, right associativity) : gui_scope.
Local Open Scope gui_scope.

Definition glift {A} (r : result A) : G A := fun w => (r, w).

(** [try: body except (cls, ...) as e: handler] *)
Definition gtry {A} (body : G A) (classes : list exn_class)
    (handler : exn -> G A) : G A :=
  fun w =>
    match body w with
    | (Returned a, w') => (Returned a, w')
    | (Raised e, w') =>
        if existsb (exn_isinstance e) classes then handler e w'
        else (Raised e, w')
    end.

(** A call of a method of [self.client_logic]. *)
Definition in_logic {A} (c : M A) : G A :=
  fun w =>
    match c (client_logic w) with
    | (r, s') =>
        (r, mkWindow s' (style_calib_points_mz w)
                     (style_calib_points_resolution w)
                     (message_boxes w) (gui_log w))
    end.

(** [set_color(widget, color)], that is [widget.setStyleSheet(color)] *)
Definition set_color (widget : line_edit) (color : string) : G unit :=
  fun w =>
    (Returned tt,
     match widget with
     | txt_calib_points_mz_value =>
         mkWindow (client_logic w) color (style_calib_points_resolution w)
                  (message_boxes w) (gui_log w)
     | txt_calib_points_resolution_value =>
         mkWindow (client_logic w) (style_calib_points_mz w) color
                  (message_boxes w) (gui_log w)
     end).

(** [logger.debug(e)] *)
Definition logger_debug (e : exn) : G unit :=
  fun w =>
    (Returned tt,
     mkWindow (client_logic w) (style_calib_points_mz w)
              (style_calib_points_resolution w) (message_boxes w)
              (gui_log w ++ [(DEBUG, exn_msg e, [])])).

(** [QMessageBox.critical(self, title, text)] and
    [QMessageBox.question(self, title, text, ...)] *)
Definition message_box (title text : string) : G unit :=
  fun w =>
    (Returned tt,
     mkWindow (client_logic w) (style_calib_points_mz w)
              (style_calib_points_resolution w)
              (message_boxes w ++ [(title, text)]) (gui_log w)).

Definition on_calib_points_mz_changed (text : text) : G value :=
  gtry (calib_points <- glift (json_loads text) ;;
        in_logic (publish_calib_points_mz calib_points) ;;
        set_color txt_calib_points_mz_value COLOR_VALID)
       [JSONDecodeError; TypeError]
       (fun e =>
          logger_debug e ;;
          set_color txt_calib_points_mz_value COLOR_INVALID) ;;
  gret VNone.

Definition on_calib_points_resolution_changed (text : text) : G value :=
  gtry (calib_points <- glift (json_loads text) ;;
        in_logic (publish_calib_points_resolution calib_points) ;;
        set_color txt_calib_points_resolution_value COLOR_VALID)
       [JSONDecodeError; TypeError]
       (fun e =>
          logger_debug e ;;
          set_color txt_calib_points_resolution_value COLOR_INVALID) ;;
  gret VNone.

(** [open_settings]; [file_name] is what [QFileDialog.getOpenFileName]
    returned, the empty string when the dialog was cancelled. *)
Definition open_settings (file_name : string) : G value :=
  if negb (String.eqb file_name "") then
    gtry (in_logic (load_settings file_name) ;; gret tt)
         [ValueError]
         (fun e => message_box "Error" (exn_msg e)) ;;
    gret VNone
  else gret VNone.

(** [os.path.exists(file_name)] *)
Definition path_exists (file_name : string) : G bool :=
  fun w =>
    (Returned (match file_lookup (files (client_logic w)) file_name with
               | Some _ => true
               | None => false
               end), w).

(** [save_settings]; [file_name] is what [QFileDialog.getSaveFileName]
    returned and [reply_no] says whether the answer to the overwrite
    question is [QMessageBox.No]. *)
Definition save_settings (file_name : string) (reply_no : bool) : G value :=
  if negb (String.eqb file_name "") then
    e <- path_exists file_name ;;
    if e then
      message_box "File Exists" "Do you want to overwrite the file?" ;;
      if reply_no then gret VNone
      else in_logic (save_settings file_name)
    else in_logic (save_settings file_name)
  else gret VNone.

(** A window around an engine, with nothing shown yet. *)
Definition around (s : engine) : window := mkWindow s "" "" [] [].

End Gui.

(** Whether a calibration text field shows its text as valid. *)
Definition calib_text_shown_valid (t : text) (s : engine) : bool :=
  match t with
  | NotJson => false
  | Json v => negb (is_connected s) || pair_list v
  end.

(** The mirror after a calibration text field of field [F] changed. *)
Definition calib_text_mirror (F : field) (t : text) (s : engine) : dict :=
  match t with
  | NotJson => settings s
  | Json v =>
      if is_connected s && pair_list v then dict_set (settings s) (field_key F) v
      else settings s
  end.

(** A disconnected window whose user types a curve with a string in it. *)
Definition typed_malformed_curve : text := Json malformed_calib_value.

(** A record with every field but mass_range. *)
Definition snapshot_without_mass_range : dict :=
  [ ("mz", VInt 1);
    ("dc_offst", VInt 0);
    ("dc_on", VBool true);
    ("rod_polarity_positive", VBool true);
    ("calib_points_mz", VList []);
    ("calib_points_resolution", VList []) ].

(** A window over a connected engine that finds three files on disk. *)
Definition window_with_files : Gui.window :=
  Gui.around
    (with_files [ ("good.json", Utf8 (Json (VDict good_snapshot)));
                  ("bad.json", Utf8 (Json (VDict bad_snapshot)));
                  ("short.json", Utf8 (Json (VDict snapshot_without_mass_range))) ]
                online).

(** ** The broker connection: [on_connect] *)

(** The client logic with what [on_connect] reads and writes besides:
    the subscriptions made on the MQTT client and two entries of the
    configuration. *)
Record client : Type := mkClient {
  logic : engine;
  subscriptions : list string;     (* calls of self.client.subscribe, oldest first *)
  mqtt_broker : string;            (* self.config["mqtt_broker"] *)
  mqtt_port : string               (* self.config["mqtt_port"], as an f-string prints it *)
}.

(** The list [subscription_topics] of [on_connect]. *)
Definition subscription_topics (s : engine) : list string :=
  [ topic_base s ++ "/response/" ++ device_name s ++ "/#";
    topic_base s ++ "/connected/" ++ device_name s;
    topic_base s ++ "/error/" ++ device_name s ++ "/#";
    topic_base s ++ "/status/" ++ device_name s ++ "/state" ].

(** One turn of [for topic in subscription_topics]. *)
Definition subscribe (c : client) (topic : string) : client :=
  mkClient (snd (logger DEBUG ("Subscribed to " ++ topic) [] (logic c)))
           (subscriptions c ++ [topic]) (mqtt_broker c) (mqtt_port c).

(** The status text handed to [emit] is a [str], which the signal takes. *)
Definition on_connect (rc : value) (c : client) : result value * client :=
  let c1 :=
    mkClient (snd (logger DEBUG "Connected with result code {}" [rc] (logic c)))
             (subscriptions c) (mqtt_broker c) (mqtt_port c) in
  let c2 := fold_left subscribe (subscription_topics (logic c1)) c1 in
  (Returned VNone,
   mkClient
     (snd (emit signal_mqtt_status_changed
             (VStr ("connected to broker " ++ mqtt_broker c2 ++ ":" ++ mqtt_port c2))
             (logic c2)))
     (subscriptions c2) (mqtt_broker c2) (mqtt_port c2)).

(** A byte string that decodes to text. *)
Definition is_text (b : bytes) : bool :=
  match b with
  | NotUtf8 => false
  | Utf8 _ => true
  end.

(** A message on an error topic that ends like the topic of mz. *)
Definition error_report_on_mz : message :=
  Message "qsource3/error/dev/mz" (Utf8 (Json (VDict [("value", VInt 5)]))).

(** A client whose broker has just acknowledged the connection. *)
Definition connected_client : client :=
  mkClient online [] "localhost" "1883".

(** The request method of a field that has one. *)
Definition request (F : field) : option (M value) :=
  match F with
  | F_dc_offst => Some request_dc_offst
  | F_calib_points_mz => Some request_calib_points_mz
  | F_calib_points_resolution => Some request_calib_points_resolution
  | _ => None
  end.

(** * Properties *)

(** ** Dictionaries *)

Lemma dict_get_set_same (d : dict) (k : string) (v : value) :
  dict_get (dict_set d k v) k = Some v.
Proof.
  induction d as [|[k' v'] d IH]; simpl.
  - now rewrite String.eqb_refl.
  - destruct (String.eqb k' k) eqn:E; simpl; rewrite E; auto.
Qed.

Lemma dict_get_set_other (d : dict) (k k' : string) (v : value) :
  k' <> k -> dict_get (dict_set d k v) k' = dict_get d k'.
Proof.
  intros Hne. induction d as [|[k0 v0] d IH]; simpl.
  - destruct (String.eqb_spec k k'); congruence.
  - destruct (String.eqb_spec k0 k) as [->|Hk]; simpl.
    + destruct (String.eqb_spec k k'); congruence.
    + destruct (String.eqb_spec k0 k'); auto.
Qed.

(** Storing the value a key already has changes nothing. *)
Lemma dict_set_same_value (d : dict) (k : string) (v : value) :
  dict_get d k = Some v -> dict_set d k v = d.
Proof.
  induction d as [|[k' v'] d IH]; simpl; [discriminate|].
  destruct (String.eqb k' k) eqn:E.
  - intros [= ->]. reflexivity.
  - intros H. now rewrite IH.
Qed.

(** ** The seven settings fields *)

Lemma field_key_inj (F G : field) : field_key F = field_key G -> F = G.
Proof. destruct F, G; simpl; intros H; try reflexivity; discriminate H. Qed.

(** ** The connectivity gate *)

Lemma client_connected_off (func : M value) (s : engine) :
  is_connected s = false ->
  client_connected func s
  = (Returned VNone, with_log (log s ++ [not_connected_record]) s).
Proof. intros H. unfold client_connected. rewrite H. reflexivity. Qed.

Lemma client_connected_on (func : M value) (s : engine) :
  is_connected s = true -> client_connected func s = func s.
Proof. intros H. unfold client_connected. rewrite H. reflexivity. Qed.

Lemma publish_unfold (F : field) (v : value) :
  publish F v
  = client_connected
      (log_func (publish_name F) [v]
                (publish_body (validator F) (field_key F) (field_code F) v)).
Proof. destruct F; reflexivity. Qed.

Lemma publish_on_valid (F : field) (v : value) (s : engine) :
  is_connected s = true ->
  validator F v = Returned tt ->
  publish F v s
  = (Returned VNone,
     with_published
       (published s ++ [(command_topic s (field_code F), Json (VDict [("value", v)]))])
       (with_settings (dict_set (settings s) (field_key F) v)
          (with_log (log s ++ [calling_record (publish_name F) [v]]) s))).
Proof.
  intros Hc Hv. rewrite publish_unfold, client_connected_on by assumption.
  unfold log_func, publish_body, bind, lift, logger. rewrite Hv. reflexivity.
Qed.

Lemma publish_on_invalid (F : field) (v : value) (e : exn) (s : engine) :
  is_connected s = true ->
  validator F v = Raised e ->
  publish F v s
  = (Raised e, with_log (log s ++ [calling_record (publish_name F) [v]]) s).
Proof.
  intros Hc Hv. rewrite publish_unfold, client_connected_on by assumption.
  unfold log_func, publish_body, bind, lift, logger. rewrite Hv. reflexivity.
Qed.

Lemma publish_off (F : field) (v : value) (s : engine) :
  is_connected s = false ->
  publish F v s = (Returned VNone, with_log (log s ++ [not_connected_record]) s).
Proof.
  intros Hc. rewrite publish_unfold. now apply client_connected_off.
Qed.

(** ** Outbound operations *)

(** C5, as the spec words it, does not hold: a publish without a transport
    session hands the caller no rejection.  It returns [None], which is
    exactly what the same call returns when the session is up and the value
    is published. *)
Lemma publish_offline_returns_like_success :
  is_raised (fst (publish_mz (VInt 5) offline)) = false /\
  fst (publish_mz (VInt 5) offline) = fst (publish_mz (VInt 5) online) /\
  fst (publish_mz (VInt 5) offline) = Returned VNone.
Proof. repeat split. Qed.

(** C5 (amended): while the transport session is not established, every
    publish method, for every field and every value, logs the warning
    "Client is not connected" and returns [None] at once; it writes no field
    of the settings mirror, publishes nothing and emits no notification.  The
    four request methods behave the same way: the warning, [None], no
    message sent, no notification, the mirror as it was. *)
Theorem publish_not_connected (F : field) (v : value) (s : engine) :
  is_connected s = false ->
  (fst (publish F v s) = Returned VNone /\
   settings (snd (publish F v s)) = settings s /\
   published (snd (publish F v s)) = published s /\
   emitted (snd (publish F v s)) = emitted s /\
   log (snd (publish F v s)) = (log s ++ [not_connected_record])%list) /\
  (forall request,
     In request [request_device_state; request_dc_offst;
                 request_calib_points_mz; request_calib_points_resolution] ->
     fst (request s) = Returned VNone /\
     settings (snd (request s)) = settings s /\
     published (snd (request s)) = published s /\
     emitted (snd (request s)) = emitted s /\
     log (snd (request s)) = (log s ++ [not_connected_record])%list).
Proof.
  intros Hc. split.
  - rewrite publish_off by assumption. simpl. repeat split.
  - intros request Hin. simpl in Hin.
    destruct Hin as [<-|[<-|[<-|[<-|[]]]]];
      match goal with
      | |- context [?f s] =>
          unfold f; rewrite client_connected_off by assumption
      end; simpl; repeat split.
Qed.

Lemma publish_not_connected_witness :
  fst (publish F_dc_on (VBool false) offline) = Returned VNone /\
  settings (snd (publish F_dc_on (VBool false) offline)) = settings offline /\
  published (snd (publish F_dc_on (VBool false) offline)) = [].
Proof.
  destruct (publish_not_connected F_dc_on (VBool false) offline eq_refl)
    as [(Hr & Hs & Hp & _) _].
  exact (conj Hr (conj Hs Hp)).
Defined.

(** C8: while connected, a publish of a value that passes the validator of
    field F returns normally, sets the mirror field F to that value at once,
    leaves the other six fields as they were, and sends exactly one message,
    [{"value": v}], to [{base}/cmnd/{device}/<code of F>]; when the validator
    raises, the exception reaches the caller, the mirror is untouched and
    nothing is sent. *)
Theorem publish_connected_effect (F : field) (v : value) (s : engine) :
  is_connected s = true ->
  (validator F v = Returned tt ->
     fst (publish F v s) = Returned VNone /\
     dict_get (settings (snd (publish F v s))) (field_key F) = Some v /\
     (forall G, G <> F ->
        dict_get (settings (snd (publish F v s))) (field_key G)
        = dict_get (settings s) (field_key G)) /\
     published (snd (publish F v s))
     = (published s
          ++ [(command_topic s (field_code F),
               Json (VDict [("value", v)]))])%list) /\
  (forall e, validator F v = Raised e ->
     fst (publish F v s) = Raised e /\
     settings (snd (publish F v s)) = settings s /\
     published (snd (publish F v s)) = published s).
Proof.
  intros Hc. split.
  - intros Hv. rewrite (publish_on_valid F v s Hc Hv). simpl.
    repeat split.
    + apply dict_get_set_same.
    + intros G HG. apply dict_get_set_other.
      intros Hk. apply HG. now apply field_key_inj.
  - intros e Hv. rewrite (publish_on_invalid F v e s Hc Hv). simpl.
    repeat split.
Qed.

Lemma publish_connected_effect_witness :
  fst (publish F_mz (VInt 5) online) = Returned VNone /\
  dict_get (settings (snd (publish F_mz (VInt 5) online))) "mz" = Some (VInt 5) /\
  dict_get (settings (snd (publish F_mz (VInt 5) online))) "dc_on" = Some (VBool true) /\
  published (snd (publish F_mz (VInt 5) online))
  = [("qsource3/cmnd/dev/mz", Json (VDict [("value", VInt 5)]))].
Proof.
  destruct (publish_connected_effect F_mz (VInt 5) online eq_refl) as [Hok _].
  destruct (Hok eq_refl) as (Hr & Hs & Hframe & Hp).
  assert (Hne : F_dc_on <> F_mz) by discriminate.
  exact (conj Hr (conj Hs (conj (Hframe F_dc_on Hne) Hp))).
Defined.

(** C10: the numeric validators take booleans for numbers.  [check_mz] and
    [check_mass_range] accept [True] and [False], and a connected publish of
    mz with [True] stores the boolean in the mirror field mz and sends
    [{"value": true}]. *)
Theorem booleans_pass_numeric_validators (b : bool) (s : engine) :
  is_connected s = true ->
  check_mz (VBool b) = Returned tt /\
  check_mass_range (VBool b) = Returned tt /\
  fst (publish_mz (VBool true) s) = Returned VNone /\
  dict_get (settings (snd (publish_mz (VBool true) s))) "mz" = Some (VBool true) /\
  published (snd (publish_mz (VBool true) s))
  = (published s
       ++ [(command_topic s "mz", Json (VDict [("value", VBool true)]))])%list.
Proof.
  intros Hc.
  assert (Hp := publish_on_valid F_mz (VBool true) s Hc eq_refl).
  simpl publish in Hp. rewrite Hp. simpl.
  repeat split.
  - now destruct b.
  - apply dict_get_set_same.
Qed.

Lemma booleans_pass_numeric_validators_witness :
  check_mz (VBool true) = Returned tt /\
  check_mass_range (VBool true) = Returned tt /\
  dict_get (settings (snd (publish_mz (VBool true) online))) "mz" = Some (VBool true).
Proof.
  destruct (booleans_pass_numeric_validators true online eq_refl)
    as (H1 & H2 & _ & H4 & _).
  exact (conj H1 (conj H2 H4)).
Defined.

(** ** The router: which handler a topic reaches *)

Lemma on_message_unfold (m : message) (s : engine) :
  on_message m s
  = (payload <- received m ;; dispatch (route (msg_topic m)) m payload) s.
Proof.
  unfold on_message, received, route, bind.
  destruct (logger DEBUG _ [] s) as [[[]|e] s1]; [|reflexivity].
  destruct (try_except _ JSONDecodeError _ s1) as [[payload|e] s2]; [|reflexivity].
  destruct (logger DEBUG _ [payload] s2) as [[[]|e] s3]; [|reflexivity].
  unfold ret, dispatch, handler.
  repeat match goal with
         | |- context [if ?b then _ else _] => destruct b
         end; reflexivity.
Qed.

Lemma received_json (m : message) (v : value) (s : engine) :
  msg_payload m = Utf8 (Json v) ->
  received m s = (Returned v, with_log (log s ++ received_log m v) s).
Proof.
  intros H. unfold received, bind, try_except, lift, logger, ret. rewrite H.
  simpl. unfold with_log. simpl. now rewrite <- app_assoc.
Qed.

Lemma received_not_json (m : message) (s : engine) :
  msg_payload m = Utf8 NotJson ->
  received m s
  = (Returned (VDict []), with_log (log s ++ received_log_not_json m) s).
Proof.
  intros H. unfold received, bind, try_except, lift, logger, ret. rewrite H.
  simpl. unfold with_log. simpl. now rewrite <- !app_assoc.
Qed.

Lemma received_not_utf8 (m : message) (s : engine) :
  msg_payload m = NotUtf8 ->
  fst (received m s) = Raised (Exn UnicodeDecodeError "'utf-8' codec can't decode byte").
Proof.
  intros H. unfold received, bind, try_except, lift, logger, ret. rewrite H.
  reflexivity.
Qed.

(** ** The per-field handlers *)

Lemma handler_unfold (F : field) (payload : value) :
  handler F payload
  = log_func (handler_name F) [payload]
      (validated_update (validator F) (field_key F) (field_signal F) payload ;;
       ret VNone).
Proof. destruct F; reflexivity. Qed.

Lemma validated_update_ok check key sig (d : dict) (v : value) (s : engine) :
  dict_get d "value" = Some v ->
  check v = Returned tt ->
  signal_accepts sig v = true ->
  validated_update check key sig (VDict d) s
  = (Returned tt,
     with_emitted (emitted s ++ [(sig, v)])
                  (with_settings (dict_set (settings s) key v) s)).
Proof.
  intros Hd Hc Ha.
  unfold validated_update, try_except, bind, lift, getitem, emit.
  rewrite Hd, Hc. simpl. rewrite Ha. reflexivity.
Qed.



Lemma validated_update_escapes check key sig (d : dict) (v : value) (e : exn)
    (s : engine) :
  dict_get d "value" = Some v ->
  check v = Raised e ->
  exn_isinstance e ValueError = false ->
  validated_update check key sig (VDict d) s = (Raised e, s).
Proof.
  intros Hd Hc He. unfold validated_update, try_except, bind, lift, getitem.
  rewrite Hd, Hc, He. reflexivity.
Qed.

Lemma validated_update_missing check key sig (d : dict) (s : engine) :
  dict_get d "value" = None ->
  validated_update check key sig (VDict d) s = (Raised (Exn KeyError "value"), s).
Proof.
  intros Hd. unfold validated_update, try_except, bind, lift, getitem.
  rewrite Hd. reflexivity.
Qed.

Lemma scalar_validator_raises_ValueError (F : field) (v : value) (e : exn) :
  scalar F = true -> validator F v = Raised e -> exn_isinstance e ValueError = true.
Proof.
  destruct F; simpl; try discriminate; intros _;
    unfold check_mass_range, check_mz, check_dc_offst, check_dc_offset,
           check_dc_on, check_rod_polarity_positive;
    match goal with |- context [if ?b then _ else _] => destruct b end;
    intros [= <-]; reflexivity.
Qed.

Lemma verify_pairs_raises_TypeError (l : list value) (e : exn) :
  verify_pairs l = Raised e -> e = Exn TypeError calib_msg.
Proof.
  induction l as [|p l IH]; simpl; [discriminate|].
  destruct (_ || _); [now intros [= <-]|].
  destruct (_ || _); [now intros [= <-]|]. exact IH.
Qed.

Lemma verify_calib_points_raises_TypeError (v : value) (e : exn) :
  verify_calib_points v = Raised e -> e = Exn TypeError calib_msg.
Proof.
  destruct v; simpl; try (now intros [= <-]). apply verify_pairs_raises_TypeError.
Qed.

(** ** The bulk state report *)

Lemma accepted_prefix_all (l : list (signal * value)) :
  forallb accepted l = true -> accepted_prefix l = l.
Proof.
  induction l as [|n l IH]; simpl; [reflexivity|].
  destruct (accepted n); simpl; [|discriminate].
  intros H. now rewrite IH.
Qed.

Lemma accepted_prefix_app_all (l1 l2 : list (signal * value)) :
  forallb accepted l1 = true ->
  accepted_prefix (l1 ++ l2) = (l1 ++ accepted_prefix l2)%list.
Proof.
  induction l1 as [|n l1 IH]; simpl; [reflexivity|].
  destruct (accepted n); simpl; [|discriminate].
  intros H. now rewrite IH.
Qed.

Lemma accepted_prefix_app_refused (l1 l2 : list (signal * value)) :
  forallb accepted l1 = false ->
  accepted_prefix (l1 ++ l2) = accepted_prefix l1.
Proof.
  induction l1 as [|n l1 IH]; simpl; [discriminate|].
  destruct (accepted n); simpl; [|reflexivity].
  intros H. now rewrite IH.
Qed.

Lemma emits_ret {A} (a : A) : emits (fun d => d) [] a (ret a).
Proof.
  intros s. unfold ret. simpl. rewrite app_nil_r.
  repeat split. discriminate.
Qed.

Lemma emits_logger (lvl : level) (msg : string) (args : list value) :
  emits (fun d => d) [] tt (logger lvl msg args).
Proof.
  intros s. unfold logger. simpl. rewrite app_nil_r.
  repeat split. discriminate.
Qed.

Lemma emits_bind {A B} (f : dict -> dict) (l1 l2 : list (signal * value))
    (a : A) (b : B) (c1 : M A) (c2 : M B) :
  emits f l1 a c1 ->
  emits (fun d => d) l2 b c2 ->
  emits f (l1 ++ l2) b (c1 ;; c2).
Proof.
  intros H1 H2 s. unfold bind.
  destruct (H1 s) as (S1 & P1 & E1 & R1 & X1).
  destruct (forallb accepted l1) eqn:A1.
  - rewrite forallb_app, A1, (accepted_prefix_app_all _ _ A1). cbn [andb].
    destruct (c1 s) as [r s1]. simpl in *. rewrite (R1 eq_refl).
    destruct (H2 s1) as (S2 & P2 & E2 & R2 & X2).
    rewrite S2, P2, E2, S1, P1, E1, (accepted_prefix_all _ A1), <- app_assoc.
    repeat split; assumption.
  - rewrite forallb_app, A1, (accepted_prefix_app_refused _ _ A1). cbn [andb].
    destruct (c1 s) as [r s1]. simpl in *. rewrite (X1 eq_refl). simpl.
    repeat split; try assumption. discriminate.
Qed.

Lemma emits_after {A B} (f : dict -> dict) (l : list (signal * value))
    (a : A) (b : B) (c1 : M A) (c2 : M B) :
  emits (fun d => d) [] a c1 ->
  emits f l b c2 ->
  emits f l b (c1 ;; c2).
Proof.
  intros H1 H2 s. unfold bind.
  destruct (H1 s) as (S1 & P1 & E1 & R1 & _).
  destruct (c1 s) as [r s1]. simpl in *. rewrite (R1 eq_refl).
  rewrite app_nil_r in E1.
  destruct (H2 s1) as (S2 & P2 & E2 & R2 & X2).
  rewrite S2, P2, E2, S1, P1, E1. repeat split; assumption.
Qed.

Lemma if_in_forward (sig : signal) (d : dict) (key label : string) :
  emits (fun m => m) (opt_emission sig (dict_get d key)) tt
        (if_in key (VDict d) (forward sig (VDict d) key label)).
Proof.
  intros s.
  unfold if_in, forward, bind, lift, py_in, dict_has, getitem, emit, logger.
  destruct (dict_get d key) as [v|]; simpl.
  - unfold accepted. simpl.
    destruct (signal_accepts sig v); simpl; rewrite ?app_nil_r;
      repeat split; discriminate.
  - rewrite app_nil_r. repeat split. discriminate.
Qed.

Lemma range_block (d : dict) :
  emits (state_report_settings d)
        (match dict_get d "range" with
         | Some v =>
             if passes (check_mass_range v)
             then [(signal_mass_range_changed, v)] else []
         | None => []
         end)
        tt
        (if_in "range" (VDict d)
           (try_except (
              v <- lift (getitem (VDict d) "range") ;;
              lift (check_mass_range v) ;;
              v <- lift (getitem (VDict d) "range") ;;
              settings_setitem "mass_range" v ;;
              v <- lift (getitem (VDict d) "range") ;;
              emit signal_mass_range_changed v ;;
              v <- lift (getitem (VDict d) "range") ;;
              logger DEBUG "Mass range: {}" [v])
            ValueError (fun e => logger DEBUG (exn_msg e) []))).
Proof.
  intros s.
  unfold if_in, state_report_settings, passes, try_except, bind, lift, py_in,
    dict_has, getitem, emit, logger, settings_setitem.
  destruct (dict_get d "range") as [v|];
    [|simpl; rewrite app_nil_r; repeat split; discriminate].
  destruct (check_mass_range v) as [[]|e] eqn:E.
  - simpl. unfold accepted. simpl.
    destruct (signal_accepts signal_mass_range_changed v); simpl;
      rewrite ?app_nil_r; repeat split; discriminate.
  - rewrite (scalar_validator_raises_ValueError F_mass_range v e eq_refl E).
    simpl. rewrite app_nil_r. repeat split. discriminate.
Qed.

Lemma bind_returned {A B} (c : M A) (k : A -> M B) (a : A) (s s' : engine) :
  c s = (Returned a, s') -> bind c k s = k a s'.
Proof. intros H. unfold bind. now rewrite H. Qed.

Lemma handle_device_state_dict (d : dict) :
  emits (state_report_settings d) (state_report_emissions d) VNone
        (handle_device_state (VDict d)).
Proof.
  unfold handle_device_state, log_func, state_report_emissions.
  apply (emits_after _ _ tt); [apply emits_logger|].
  replace (opt_emission signal_max_mz_changed (dict_get d "max_mz"))
    with (opt_emission signal_max_mz_changed (dict_get d "max_mz") ++ [])%list
    by apply app_nil_r.
  apply (emits_bind _ _ _ tt); [apply range_block|].
  do 10 (apply (emits_bind _ _ _ tt); [apply if_in_forward|]).
  apply emits_ret.
Qed.

(** ** Inbound messages *)

Lemma on_message_json (m : message) (v : value) (s : engine) :
  msg_payload m = Utf8 (Json v) ->
  on_message m s
  = dispatch (route (msg_topic m)) m v (with_log (log s ++ received_log m v) s).
Proof.
  intros H. rewrite on_message_unfold.
  now erewrite bind_returned by (apply received_json; exact H).
Qed.

Lemma on_message_not_json (m : message) (s : engine) :
  msg_payload m = Utf8 NotJson ->
  on_message m s
  = dispatch (route (msg_topic m)) m (VDict [])
             (with_log (log s ++ received_log_not_json m) s).
Proof.
  intros H. rewrite on_message_unfold.
  now erewrite bind_returned by (apply received_not_json; exact H).
Qed.

Lemma handler_ok (F : field) (d : dict) (v : value) (s : engine) :
  dict_get d "value" = Some v ->
  validator F v = Returned tt ->
  signal_accepts (field_signal F) v = true ->
  handler F (VDict d) s
  = (Returned VNone,
     with_emitted (emitted s ++ [(field_signal F, v)])
       (with_settings (dict_set (settings s) (field_key F) v)
          (with_log (log s ++ [calling_record (handler_name F) [VDict d]]) s))).
Proof.
  intros Hd Hv Ha. rewrite handler_unfold. unfold log_func.
  erewrite bind_returned by reflexivity.
  erewrite bind_returned by (apply validated_update_ok; eassumption).
  reflexivity.
Qed.



Lemma handler_escapes (F : field) (d : dict) (v : value) (e : exn) (s : engine) :
  dict_get d "value" = Some v ->
  validator F v = Raised e ->
  exn_isinstance e ValueError = false ->
  handler F (VDict d) s
  = (Raised e, with_log (log s ++ [calling_record (handler_name F) [VDict d]]) s).
Proof.
  intros Hd Hv He. rewrite handler_unfold. unfold log_func.
  erewrite bind_returned by reflexivity.
  unfold bind. now rewrite (validated_update_escapes _ _ _ d v e _ Hd Hv He).
Qed.

Lemma handler_missing (F : field) (d : dict) (s : engine) :
  dict_get d "value" = None ->
  handler F (VDict d) s
  = (Raised (Exn KeyError "value"),
     with_log (log s ++ [calling_record (handler_name F) [VDict d]]) s).
Proof.
  intros Hd. rewrite handler_unfold. unfold log_func.
  erewrite bind_returned by reflexivity.
  unfold bind. now rewrite (validated_update_missing _ _ _ d _ Hd).
Qed.

(** C1 fails on the code: for the calibration-points report
    [{"value": [[1, 2], ["a", 3]]}] on the topic
    [.../calib_points_resolution], [verify_calib_points] raises [TypeError],
    the handler catches only [ValueError], and the exception leaves
    [on_message]; the failure is not logged by the handler and the mirror
    stays as it was.  [handle_calib_points_mz] does the same when it is
    called.  The wrapper [check_calib_points_resolution], which
    turns the same failure into a [ValueError], is the validator
    [load_settings] uses. *)
Theorem calib_report_type_error_escapes (s : engine) :
  fst (on_message malformed_calib_report s) = Raised (Exn TypeError calib_msg) /\
  settings (snd (on_message malformed_calib_report s)) = settings s /\
  fst (handle_calib_points_mz (VDict [("value", malformed_calib_value)]) s)
  = Raised (Exn TypeError calib_msg) /\
  exn_isinstance (Exn TypeError calib_msg) ValueError = false /\
  check_calib_points_resolution malformed_calib_value
  = Raised (Exn ValueError ("Invalid calib_points_resolution value. " ++ calib_msg)).
Proof.
  assert (E : on_message malformed_calib_report s
              = (Raised (Exn TypeError calib_msg),
                 with_log
                   (log (with_log (log s ++ received_log malformed_calib_report
                                         (VDict [("value", malformed_calib_value)])) s)
                    ++ [calling_record (handler_name F_calib_points_resolution)
                          [VDict [("value", malformed_calib_value)]]])
                   (with_log (log s ++ received_log malformed_calib_report
                                    (VDict [("value", malformed_calib_value)])) s))).
  { rewrite (on_message_json malformed_calib_report _ s eq_refl).
    change (route (msg_topic malformed_calib_report))
      with (B_field F_calib_points_resolution).
    apply (handler_escapes F_calib_points_resolution
             [("value", malformed_calib_value)] malformed_calib_value);
      reflexivity. }
  rewrite E. repeat split.
Qed.

(** C2 fails on the code: a per-field report for mz whose payload is not
    JSON is read as the empty record, the dispatch reaches [handle_mz], and
    there [payload["value"]] raises [KeyError], which [except ValueError]
    does not catch: the exception leaves [on_message].  The mirror is left as
    it was.  The empty JSON record fails the same way, and a payload that is
    not UTF-8 raises [UnicodeDecodeError] before any classification. *)
Theorem missing_value_key_error_escapes (s : engine) :
  fst (on_message undecodable_mz_report s) = Raised (Exn KeyError "value") /\
  settings (snd (on_message undecodable_mz_report s)) = settings s /\
  fst (on_message empty_record_mz_report s) = Raised (Exn KeyError "value") /\
  fst (on_message not_utf8_mz_report s)
  = Raised (Exn UnicodeDecodeError "'utf-8' codec can't decode byte").
Proof.
  split; [|split; [|split]].
  - rewrite (on_message_not_json undecodable_mz_report s eq_refl).
    change (route (msg_topic undecodable_mz_report)) with (B_field F_mz).
    unfold dispatch. now rewrite handler_missing.
  - rewrite (on_message_not_json undecodable_mz_report s eq_refl).
    change (route (msg_topic undecodable_mz_report)) with (B_field F_mz).
    unfold dispatch. now rewrite handler_missing.
  - rewrite (on_message_json empty_record_mz_report (VDict []) s eq_refl).
    change (route (msg_topic empty_record_mz_report)) with (B_field F_mz).
    unfold dispatch. now rewrite handler_missing.
  - rewrite on_message_unfold. unfold bind.
    pose proof (received_not_utf8 not_utf8_mz_report s eq_refl) as H.
    destruct (received not_utf8_mz_report s) as [[v|e] s']; simpl in H.
    + discriminate H.
    + now rewrite H.
Qed.

(** C3 fails on the code: a topic that ends in [max_mz] also ends in [mz],
    and [on_message] tests [endswith("mz")] first.  The max_mz report
    [{"value": 500}] therefore reaches [handle_mz], which writes 500 into
    the mirror field mz and raises the mz notification, not the max_mz
    one. *)
Theorem max_mz_report_overwrites_mz (s : engine) :
  route (msg_topic max_mz_report) = B_field F_mz /\
  fst (on_message max_mz_report s) = Returned VNone /\
  settings (snd (on_message max_mz_report s)) = dict_set (settings s) "mz" (VInt 500) /\
  emitted (snd (on_message max_mz_report s))
  = (emitted s ++ [(signal_mz_changed, VInt 500)])%list /\
  dict_get (settings online) "mz" = Some (VInt 0) /\
  dict_get (settings (snd (on_message max_mz_report online))) "mz" = Some (VInt 500).
Proof.
  assert (E : forall s', on_message max_mz_report s'
              = handler F_mz (VDict [("value", VInt 500)])
                  (with_log (log s' ++ received_log max_mz_report
                                      (VDict [("value", VInt 500)])) s')).
  { intros s'. now rewrite (on_message_json max_mz_report _ s' eq_refl). }
  rewrite !E.
  rewrite !(handler_ok F_mz [("value", VInt 500)] (VInt 500)) by reflexivity.
  repeat split.
Qed.




(** ** The resync after a device-connected event *)

Lemma route_connected (topic : string) :
  contains "/connected/" topic = true -> route topic = B_connected.
Proof. intros H. unfold route. now rewrite H. Qed.

Lemma request_on (name code : string) (s : engine) :
  is_connected s = true ->
  client_connected
    (log_func name []
       (t <- cmnd_topic code ;;
        client_publish t (json_dumps (VDict [])) ;;
        ret VNone)) s
  = (Returned VNone,
     with_published (published s ++ [(command_topic s code, Json (VDict []))])
                    (with_log (log s ++ [calling_record name []]) s)).
Proof.
  intros Hc. rewrite client_connected_on by assumption. reflexivity.
Qed.

Lemma handle_device_connected_on (m : message) (s : engine) :
  is_connected s = true ->
  exists s',
    handle_device_connected m s = (Returned VNone, s') /\
    published s' = (published s ++ resync_sequence s)%list /\
    settings s' = settings s /\
    emitted s' = (emitted s ++ [(signal_device_status_changed, VStr "connected")])%list /\
    is_connected s' = true /\
    topic_base s' = topic_base s /\
    device_name s' = device_name s.
Proof.
  intros Hc.
  unfold handle_device_connected, request_device_state, request_dc_offst,
    request_calib_points_mz, request_calib_points_resolution.
  erewrite bind_returned by reflexivity.
  erewrite bind_returned by reflexivity.
  do 4 (erewrite bind_returned by (apply request_on; exact Hc)).
  eexists. split; [reflexivity|]. simpl.
  repeat split; try assumption. unfold resync_sequence.
  now rewrite <- !app_assoc.
Qed.

Lemma on_message_device_connected (m : message) (s : engine) :
  is_connected s = true ->
  device_connected_event m = true ->
  exists s',
    on_message m s = (Returned VNone, s') /\
    published s' = (published s ++ resync_sequence s)%list /\
    settings s' = settings s /\
    is_connected s' = true /\
    topic_base s' = topic_base s /\
    device_name s' = device_name s.
Proof.
  intros Hc Hev. unfold device_connected_event in Hev.
  apply andb_prop in Hev. destruct Hev as [Ht Hp].
  destruct (msg_payload m) as [|[|v]] eqn:Ep; [discriminate| |].
  - rewrite (on_message_not_json m s Ep), (route_connected _ Ht). unfold dispatch.
    destruct (handle_device_connected_on m
                (with_log (log s ++ received_log_not_json m) s) Hc)
      as (s' & E & P & S & _ & C & B & D).
    exists s'. now repeat split.
  - rewrite (on_message_json m v s Ep), (route_connected _ Ht). unfold dispatch.
    destruct (handle_device_connected_on m
                (with_log (log s ++ received_log m v) s) Hc)
      as (s' & E & P & S & _ & C & B & D).
    exists s'. now repeat split.
Qed.

Lemma handle_device_connected_off (m : message) (s : engine) :
  is_connected s = false ->
  exists s',
    handle_device_connected m s = (Returned VNone, s') /\
    published s' = published s /\
    settings s' = settings s /\
    is_connected s' = false.
Proof.
  intros Hc.
  unfold handle_device_connected, request_device_state, request_dc_offst,
    request_calib_points_mz, request_calib_points_resolution.
  erewrite bind_returned by reflexivity.
  erewrite bind_returned by reflexivity.
  do 4 (erewrite bind_returned by (apply client_connected_off; exact Hc)).
  eexists. split; [reflexivity|]. simpl. now repeat split.
Qed.

Lemma on_message_device_connected_off (m : message) (s : engine) :
  is_connected s = false ->
  device_connected_event m = true ->
  exists s',
    on_message m s = (Returned VNone, s') /\
    published s' = published s /\
    settings s' = settings s /\
    is_connected s' = false.
Proof.
  intros Hc Hev. unfold device_connected_event in Hev.
  apply andb_prop in Hev. destruct Hev as [Ht Hp].
  destruct (msg_payload m) as [|[|v]] eqn:Ep; [discriminate| |].
  - rewrite (on_message_not_json m s Ep), (route_connected _ Ht). unfold dispatch.
    apply (handle_device_connected_off m
             (with_log (log s ++ received_log_not_json m) s) Hc).
  - rewrite (on_message_json m v s Ep), (route_connected _ Ht). unfold dispatch.
    apply (handle_device_connected_off m
             (with_log (log s ++ received_log m v) s) Hc).
Qed.

Lemma deliver_device_connected_on (ms : list message) (s : engine) :
  is_connected s = true ->
  forallb device_connected_event ms = true ->
  fst (deliver ms s) = Returned tt /\
  published (snd (deliver ms s))
  = (published s ++ List.concat (map (fun _ => resync_sequence s) ms))%list /\
  settings (snd (deliver ms s)) = settings s.
Proof.
  revert s. induction ms as [|m ms IH]; intros s Hc Hall; simpl.
  - repeat split. now rewrite app_nil_r.
  - simpl in Hall. apply andb_prop in Hall. destruct Hall as [Hm Hms].
    destruct (on_message_device_connected m s Hc Hm)
      as (s' & E & P & S & C & B & D).
    unfold bind. rewrite E.
    destruct (IH s' C Hms) as (Hr & Hp & Hs).
    rewrite Hr, Hp, Hs, P, S.
    assert (R : resync_sequence s' = resync_sequence s).
    { unfold resync_sequence, command_topic. now rewrite B, D. }
    rewrite R. repeat split. now rewrite <- app_assoc.
Qed.

Lemma deliver_device_connected_off (ms : list message) (s : engine) :
  is_connected s = false ->
  forallb device_connected_event ms = true ->
  fst (deliver ms s) = Returned tt /\
  published (snd (deliver ms s)) = published s /\
  settings (snd (deliver ms s)) = settings s.
Proof.
  revert s. induction ms as [|m ms IH]; intros s Hc Hall; simpl.
  - repeat split.
  - simpl in Hall. apply andb_prop in Hall. destruct Hall as [Hm Hms].
    destruct (on_message_device_connected_off m s Hc Hm) as (s' & E & P & S & C).
    unfold bind. rewrite E.
    destruct (IH s' C Hms) as (Hr & Hp & Hs).
    rewrite Hr, Hp, Hs, P, S. repeat split.
Qed.

(** C7, as the spec words it, does not hold of every device-connected
    event.  The four requests pass through the gate every outbound method
    has: when the transport session is not established at the moment the
    event is handled, each of them logs the warning and returns, and the two
    events below make no request at all.  And an event whose payload is not
    UTF-8 never reaches the handler: decoding raises before the topic is
    looked at, and nothing is requested although the session is up. *)
Lemma device_connected_without_resync :
  forallb device_connected_event two_connected_events = true /\
  fst (deliver two_connected_events offline) = Returned tt /\
  published (snd (deliver two_connected_events offline)) = [] /\
  fst (on_message (Message "qsource3/connected/dev" NotUtf8) online)
  = Raised (Exn UnicodeDecodeError "'utf-8' codec can't decode byte") /\
  published (snd (on_message (Message "qsource3/connected/dev" NotUtf8) online)) = [].
Proof. repeat split. Qed.

(** C7 (amended): for device-connected events whose payload decodes as
    text, handled while the transport session is up, every event makes
    [on_message] publish exactly the four requests of the resync sequence,
    once each and in the order state, dc_offst, calib_pnts_rf,
    calib_pnts_dc, each with the empty record as payload.  Consecutive
    events are not merged: [n] events in a row publish the sequence [n]
    times.  Handled while the session is down, the same events publish
    nothing.  Either way [on_message] returns normally and the mirror is
    not touched. *)
Theorem device_connected_resync (ms : list message) (s : engine) :
  forallb device_connected_event ms = true ->
  fst (deliver ms s) = Returned tt /\
  settings (snd (deliver ms s)) = settings s /\
  (is_connected s = true ->
     published (snd (deliver ms s))
     = (published s ++ List.concat (map (fun _ => resync_sequence s) ms))%list) /\
  (is_connected s = false ->
     published (snd (deliver ms s)) = published s).
Proof.
  intros Hall. destruct (is_connected s) eqn:Hc.
  - destruct (deliver_device_connected_on ms s Hc Hall) as (Hr & Hp & Hs).
    split; [exact Hr|]. split; [exact Hs|].
    split; [intros _; exact Hp|intros H; discriminate H].
  - destruct (deliver_device_connected_off ms s Hc Hall) as (Hr & Hp & Hs).
    split; [exact Hr|]. split; [exact Hs|].
    split; [intros H; discriminate H|intros _; exact Hp].
Qed.

Lemma device_connected_resync_witness :
  fst (deliver two_connected_events online) = Returned tt /\
  published (snd (deliver two_connected_events online))
  = [ ("qsource3/cmnd/dev/state", Json (VDict []));
      ("qsource3/cmnd/dev/dc_offst", Json (VDict []));
      ("qsource3/cmnd/dev/calib_pnts_rf", Json (VDict []));
      ("qsource3/cmnd/dev/calib_pnts_dc", Json (VDict []));
      ("qsource3/cmnd/dev/state", Json (VDict []));
      ("qsource3/cmnd/dev/dc_offst", Json (VDict []));
      ("qsource3/cmnd/dev/calib_pnts_rf", Json (VDict []));
      ("qsource3/cmnd/dev/calib_pnts_dc", Json (VDict [])) ] /\
  settings (snd (deliver two_connected_events online)) = settings online /\
  published (snd (deliver two_connected_events offline)) = published offline.
Proof.
  destruct (device_connected_resync two_connected_events online eq_refl)
    as (Hr & Hs & Hon & _).
  destruct (device_connected_resync two_connected_events offline eq_refl)
    as (_ & _ & _ & Hoff).
  exact (conj Hr (conj (Hon eq_refl) (conj Hs (Hoff eq_refl)))).
Defined.

(** ** Settings files *)

Lemma load_settings_unfold (name : string) (doc : value) (s : engine) :
  file_lookup (files s) name = Some (Utf8 (Json doc)) ->
  load_settings name s
  = match check_fields doc all_fields with
    | Raised e => (Raised e, s)
    | Returned _ => load_publish doc s
    end.
Proof.
  intros Hf. unfold load_settings, json_load_file, bind at 1. rewrite Hf.
  unfold all_fields, check_fields, load_validator, validator, field_key.
  unfold bind, lift. simpl.
  repeat match goal with
         | |- context [match getitem doc ?k with _ => _ end] =>
             destruct (getitem doc k) as [?v|?e]; [|reflexivity]
         | |- context [match ?c ?v with Returned _ => _ | Raised _ => _ end] =>
             destruct (c v) as [[]|?e]; [|reflexivity]
         end.
  reflexivity.
Qed.

Lemma check_fields_passes (doc : value) (Fs : list field) :
  is_raised (check_fields doc Fs) = negb (forallb (field_passes doc) Fs).
Proof.
  induction Fs as [|F Fs IH]; simpl; [reflexivity|].
  unfold field_passes at 1, passes.
  destruct (getitem doc (field_key F)) as [v|e]; [|reflexivity].
  destruct (load_validator F v) as [[]|e]; [|reflexivity].
  simpl. exact IH.
Qed.

Lemma load_validator_passes (F : field) (v : value) :
  passes (load_validator F v) = true -> validator F v = Returned tt.
Proof.
  unfold passes.
  destruct F; simpl;
    try (destruct (_ v) as [[]|e]; [reflexivity|discriminate]);
    unfold check_calib_points_mz, check_calib_points_resolution;
    (destruct (verify_calib_points v) as [[]|e]; [reflexivity|]);
    destruct (exn_isinstance e TypeError); discriminate.
Qed.

Lemma validator_passes_load (F : field) (v : value) :
  validator F v = Returned tt -> passes (load_validator F v) = true.
Proof.
  unfold passes.
  destruct F; simpl; intros H;
    try (now rewrite H);
    unfold check_calib_points_mz, check_calib_points_resolution; now rewrite H.
Qed.

Lemma field_passes_dict (doc : value) (F : field) :
  field_passes doc F = true ->
  exists d v, doc = VDict d /\ dict_get d (field_key F) = Some v /\
              validator F v = Returned tt.
Proof.
  unfold field_passes, getitem.
  destruct doc as [| | | | | |d]; try discriminate.
  destruct (dict_get d (field_key F)) as [v|] eqn:Hd; [|discriminate].
  intros H. exists d, v. split; [reflexivity|]. split; [exact Hd|].
  now apply load_validator_passes.
Qed.

(** A publish of the value the mirror already holds leaves the mirror as it
    is, connected or not. *)
Lemma publish_keeps (F : field) (v : value) (s : engine) :
  dict_get (settings s) (field_key F) = Some v ->
  validator F v = Returned tt ->
  fst (publish F v s) = Returned VNone /\
  settings (snd (publish F v s)) = settings s /\
  files (snd (publish F v s)) = files s /\
  emitted (snd (publish F v s)) = emitted s.
Proof.
  intros Hd Hv. destruct (is_connected s) eqn:Hc.
  - rewrite (publish_on_valid F v s Hc Hv). simpl.
    now rewrite (dict_set_same_value _ _ _ Hd).
  - rewrite (publish_off F v s Hc). now simpl.
Qed.

(** One [self.publish_<F>(settings["<F>"])] of [load_settings]. *)
Lemma republish_step (F : field) (k : M value) (d : dict) (s0 st : engine) :
  settings st = d -> files st = files s0 -> emitted st = emitted s0 ->
  field_passes (VDict d) F = true ->
  (forall st', settings st' = d -> files st' = files s0 ->
               emitted st' = emitted s0 -> loaded d s0 (k st')) ->
  loaded d s0
    ((settings <- settings_object ;;
      v <- lift (getitem settings (field_key F)) ;;
      publish F v ;;
      k) st).
Proof.
  intros S Fi Em HF Hk.
  destruct (field_passes_dict _ _ HF) as (d' & v & E & Hd & Hv).
  injection E as <-. rewrite <- S in Hd.
  destruct (publish_keeps F v st Hd Hv) as (R & S' & Fi' & Em').
  unfold settings_object, bind, lift, getitem. rewrite Hd.
  destruct (publish F v st) as [r st']. simpl in R, S', Fi', Em'. subst r.
  apply Hk; congruence.
Qed.

Lemma load_publish_valid (d : dict) (s : engine) :
  (forall F, field_passes (VDict d) F = true) ->
  loaded d s (load_publish (VDict d) s).
Proof.
  intros Hall. unfold load_publish.
  erewrite bind_returned by reflexivity.
  apply (republish_step F_mass_range); [reflexivity..|apply Hall|].
  intros s1 S1 F1 E1.
  apply (republish_step F_mz); [assumption..|apply Hall|].
  intros s2 S2 F2 E2.
  apply (republish_step F_dc_offst); [assumption..|apply Hall|].
  intros s3 S3 F3 E3.
  apply (republish_step F_dc_on); [assumption..|apply Hall|].
  intros s4 S4 F4 E4.
  apply (republish_step F_rod_polarity_positive); [assumption..|apply Hall|].
  intros s5 S5 F5 E5.
  apply (republish_step F_calib_points_mz); [assumption..|apply Hall|].
  intros s6 S6 F6 E6.
  apply (republish_step F_calib_points_resolution); [assumption..|apply Hall|].
  intros s7 S7 F7 E7.
  unfold loaded, ret. simpl. auto.
Qed.

(** C6: loading a snapshot is all or nothing.  When one of the seven fields
    of the loaded record is missing or fails its validator, [load_settings]
    raises, and the mirror is the one from before the call, with nothing
    published and no notification raised; when all seven pass, it returns
    normally and the mirror is the loaded record, all seven fields
    replaced. *)
Theorem load_settings_all_or_nothing (name : string) (doc : value) (s : engine) :
  file_lookup (files s) name = Some (Utf8 (Json doc)) ->
  ((exists F, field_passes doc F = false) ->
     is_raised (fst (load_settings name s)) = true /\
     settings (snd (load_settings name s)) = settings s /\
     published (snd (load_settings name s)) = published s /\
     emitted (snd (load_settings name s)) = emitted s) /\
  ((forall F, field_passes doc F = true) ->
     fst (load_settings name s) = Returned VNone /\
     VDict (settings (snd (load_settings name s))) = doc /\
     forall F, getitem (VDict (settings (snd (load_settings name s)))) (field_key F)
               = getitem doc (field_key F)).
Proof.
  intros Hf. rewrite (load_settings_unfold name doc s Hf). split.
  - intros [F HF].
    pose proof (check_fields_passes doc all_fields) as Hr.
    assert (Hall : forallb (field_passes doc) all_fields = false).
    { apply Bool.not_true_is_false. intros Hall.
      rewrite forallb_forall in Hall.
      assert (Hin : In F all_fields) by (destruct F; simpl; tauto).
      rewrite (Hall F Hin) in HF. discriminate. }
    rewrite Hall in Hr. cbn [negb] in Hr.
    destruct (check_fields doc all_fields) as [[]|e]; [discriminate|].
    simpl. repeat split.
  - intros Hall.
    pose proof (check_fields_passes doc all_fields) as Hr.
    assert (Hb : forallb (field_passes doc) all_fields = true).
    { apply forallb_forall. intros F _. apply Hall. }
    rewrite Hb in Hr. cbn [negb] in Hr.
    destruct (check_fields doc all_fields) as [[]|e]; [|discriminate].
    destruct (field_passes_dict _ _ (Hall F_mz)) as (d & _ & -> & _).
    destruct (load_publish_valid d s Hall) as (R & S & _).
    rewrite R, S. repeat split.
Qed.

Lemma load_settings_all_or_nothing_witness :
  (is_raised (fst (load_settings "bad.json" with_snapshots)) = true /\
   settings (snd (load_settings "bad.json" with_snapshots)) = settings with_snapshots /\
   published (snd (load_settings "bad.json" with_snapshots)) = []) /\
  (fst (load_settings "good.json" with_snapshots) = Returned VNone /\
   VDict (settings (snd (load_settings "good.json" with_snapshots)))
   = VDict good_snapshot).
Proof.
  destruct (load_settings_all_or_nothing "bad.json" (VDict bad_snapshot)
              with_snapshots eq_refl) as [Hbad _].
  destruct (Hbad (ex_intro _ F_mz eq_refl)) as (Hr & Hs & Hp & _).
  destruct (load_settings_all_or_nothing "good.json" (VDict good_snapshot)
              with_snapshots eq_refl) as [_ Hgood].
  assert (Hall : forall F, field_passes (VDict good_snapshot) F = true)
    by (intros F; destruct F; reflexivity).
  destruct (Hgood Hall) as (Hr' & Hs' & _).
  exact (conj (conj Hr (conj Hs Hp)) (conj Hr' Hs')).
Defined.

Lemma file_lookup_saved (name : string) (s : engine) :
  file_lookup (files (snd (save_settings name s))) name
  = Some (Utf8 (Json (VDict (settings s)))).
Proof.
  unfold save_settings, settings_object, json_dump_file, bind, ret. simpl.
  now rewrite String.eqb_refl.
Qed.

(** C9: when the mirror holds a valid snapshot S (all seven fields there,
    each passing its validator), saving it to a file and loading that file,
    into the same engine or into any other that finds the file, returns
    normally and leaves exactly S in the mirror: the same keys with the same
    values in the same order, calibration curves included. *)
Theorem save_load_round_trip (name : string) (s other : engine) :
  (forall F, field_passes (VDict (settings s)) F = true) ->
  files other = files (snd (save_settings name s)) ->
  (fst (load_settings name other) = Returned VNone /\
   settings (snd (load_settings name other)) = settings s) /\
  (fst ((save_settings name ;; load_settings name) s) = Returned VNone /\
   settings (snd ((save_settings name ;; load_settings name) s)) = settings s).
Proof.
  intros Hvalid Hfiles.
  assert (Hload : forall o, files o = files (snd (save_settings name s)) ->
            fst (load_settings name o) = Returned VNone /\
            settings (snd (load_settings name o)) = settings s).
  { intros o Ho.
    assert (Hf : file_lookup (files o) name = Some (Utf8 (Json (VDict (settings s)))))
      by (rewrite Ho; apply file_lookup_saved).
    rewrite (load_settings_unfold name _ o Hf).
    pose proof (check_fields_passes (VDict (settings s)) all_fields) as Hr.
    assert (Hb : forallb (field_passes (VDict (settings s))) all_fields = true).
    { apply forallb_forall. intros F _. apply Hvalid. }
    rewrite Hb in Hr. cbn [negb] in Hr.
    destruct (check_fields (VDict (settings s)) all_fields) as [[]|e];
      [|discriminate].
    destruct (load_publish_valid (settings s) o Hvalid) as (R & S & _).
    now split. }
  split; [now apply Hload|].
  unfold bind at 1 2.
  destruct (save_settings name s) as [r s1] eqn:Es.
  assert (Er : r = Returned VNone) by (now inversion Es).
  subst r. apply Hload. reflexivity.
Qed.

Lemma save_load_round_trip_witness :
  fst ((save_settings "settings.json" ;; load_settings "settings.json") holding_snapshot)
  = Returned VNone /\
  settings (snd ((save_settings "settings.json" ;; load_settings "settings.json")
                   holding_snapshot))
  = good_snapshot /\
  settings (snd (load_settings "settings.json"
                   (with_files (files (snd (save_settings "settings.json" holding_snapshot)))
                               offline)))
  = good_snapshot.
Proof.
  assert (Hall : forall F, field_passes (VDict (settings holding_snapshot)) F = true)
    by (intros F; destruct F; reflexivity).
  destruct (save_load_round_trip "settings.json" holding_snapshot
              (with_files (files (snd (save_settings "settings.json" holding_snapshot)))
                          offline)
              Hall eq_refl) as [[_ Hother] [Hr Hs]].
  exact (conj Hr (conj Hs Hother)).
Defined.

(** ** Suffix tests *)

Lemma substring_0_length (s : string) : substring 0 (String.length s) s = s.
Proof. induction s as [|c s IH]; simpl; [reflexivity|now rewrite IH]. Qed.

Lemma substring_0_0 (s : string) : substring 0 0 s = "".
Proof. now destruct s. Qed.

Lemma length_app (p s : string) :
  String.length (p ++ s) = (String.length p + String.length s)%nat.
Proof. induction p as [|c p IH]; simpl; [reflexivity|now rewrite IH]. Qed.

Lemma substring_skip (p s : string) (m : nat) :
  substring (String.length p) m (p ++ s) = substring 0 m s.
Proof. induction p as [|c p IH]; simpl; [reflexivity|exact IH]. Qed.

Lemma app_assoc_string (a b c : string) : (a ++ b) ++ c = a ++ (b ++ c).
Proof. induction a as [|x a IH]; simpl; [reflexivity|now rewrite IH]. Qed.

Lemma endswith_app (p suffix : string) : endswith (p ++ suffix) suffix = true.
Proof.
  unfold endswith. rewrite length_app.
  replace (String.length p + String.length suffix - String.length suffix)%nat
    with (String.length p) by lia.
  rewrite substring_skip, substring_0_length, String.eqb_refl.
  rewrite andb_true_r. apply Nat.leb_le. lia.
Qed.

Lemma string_split (k : nat) (s : string) :
  (k <= String.length s)%nat ->
  s = substring 0 k s ++ substring k (String.length s - k) s.
Proof.
  revert s. induction k as [|k IH]; intros s Hk.
  - rewrite substring_0_0, Nat.sub_0_r, substring_0_length. reflexivity.
  - destruct s as [|c s]; simpl in Hk; [lia|].
    simpl. f_equal. apply IH. lia.
Qed.

Lemma endswith_inv (s suffix : string) :
  endswith s suffix = true -> exists p, s = p ++ suffix.
Proof.
  unfold endswith. intros H. apply andb_prop in H. destruct H as [Hle Heq].
  apply Nat.leb_le in Hle. apply String.eqb_eq in Heq.
  exists (substring 0 (String.length s - String.length suffix) s).
  rewrite <- Heq at 2.
  rewrite (string_split (String.length s - String.length suffix) s) at 1 by lia.
  f_equal. f_equal. lia.
Qed.

(** A string that ends in [a ++ b] ends in [b]. *)
Lemma endswith_longer (s a b : string) :
  endswith s (a ++ b) = true -> endswith s b = true.
Proof.
  intros H. destruct (endswith_inv _ _ H) as [p ->].
  rewrite <- app_assoc_string. apply endswith_app.
Qed.

(** X1: no topic reaches [handle_max_mz] or [handle_calib_points_mz] through
    [on_message]: a topic that ends in [max_mz] or in [calib_points_mz] ends
    in [mz], and the test for [mz] comes first. *)
Theorem max_mz_and_calib_points_mz_unreachable (topic : string) :
  shadowed (route topic) = false.
Proof.
  unfold route.
  destruct (contains "/connected/" topic); [reflexivity|].
  destruct (contains "/error/" topic); [reflexivity|].
  destruct (endswith topic "state"); [reflexivity|].
  destruct (endswith topic "range"); [reflexivity|].
  destruct (endswith topic "mz") eqn:Hmz; [reflexivity|].
  destruct (endswith topic "dc_offst"); [reflexivity|].
  destruct (endswith topic "dc_on"); [reflexivity|].
  destruct (endswith topic "rod_polarity_positive"); [reflexivity|].
  destruct (endswith topic "calib_points_mz") eqn:Hc.
  { apply (endswith_longer topic "calib_points_" "mz") in Hc. congruence. }
  destruct (endswith topic "calib_points_resolution"); [reflexivity|].
  destruct (endswith topic "max_mz") eqn:Hx.
  { apply (endswith_longer topic "max_" "mz") in Hx. congruence. }
  reflexivity.
Qed.

(** ** What a state report leaves alone *)

Lemma in_opt_emission (sig : signal) (v : value) (o : option value) :
  o = Some v -> In (sig, v) (opt_emission sig o).
Proof. intros ->. now left. Qed.

Lemma telemetry_in_emissions (d : dict) (k : string) (sig : signal) (v : value) :
  In (k, sig) telemetry_keys ->
  dict_get d k = Some v ->
  In (sig, v) (state_report_emissions d).
Proof.
  intros Hin Hd. unfold state_report_emissions. simpl in Hin.
  destruct Hin as [E|[E|[E|[E|[E|[E|[]]]]]]]; injection E as <- <-;
    repeat (apply in_or_app;
            first [ left; apply in_opt_emission; exact Hd | right ]);
    apply in_opt_emission; exact Hd.
Qed.

(** X2: a state report whose payload is a JSON record changes no key of the
    mirror other than mass_range and publishes nothing, whatever its
    outcome.  When every value it carries is one the typed signal it is
    emitted on takes, [on_message] returns normally and every telemetry
    value of the report has been raised as that value's notification;
    otherwise the [TypeError] of [emit] leaves [on_message]. *)
Theorem state_report_telemetry_only_forwarded (m : message) (d : dict) (s : engine) :
  msg_payload m = Utf8 (Json (VDict d)) ->
  route (msg_topic m) = B_state ->
  (forall k, k <> "mass_range" ->
     dict_get (settings (snd (on_message m s))) k = dict_get (settings s) k) /\
  published (snd (on_message m s)) = published s /\
  (forallb accepted (state_report_emissions d) = true ->
     fst (on_message m s) = Returned VNone /\
     (forall k sig v, In (k, sig) telemetry_keys -> dict_get d k = Some v ->
        In (sig, v) (emitted (snd (on_message m s))))) /\
  (forallb accepted (state_report_emissions d) = false ->
     fst (on_message m s) = Raised emit_error).
Proof.
  intros Hp Hr. rewrite (on_message_json m (VDict d) s Hp), Hr. unfold dispatch.
  destruct (handle_device_state_dict d
              (with_log (log s ++ received_log m (VDict d)) s))
    as (S & P & E & R & X).
  simpl in S, P, E. rewrite S, P, E.
  split; [|split; [reflexivity|split; [|exact X]]].
  - intros k Hk. unfold state_report_settings.
    destruct (dict_get d "range") as [v|]; [|reflexivity].
    destruct (passes (check_mass_range v)); [|reflexivity].
    now apply dict_get_set_other.
  - intros Hall. split; [exact (R Hall)|].
    intros k sig v Hin Hd. rewrite (accepted_prefix_all _ Hall).
    apply in_or_app. right. now apply (telemetry_in_emissions d k).
Qed.

Lemma state_report_telemetry_only_forwarded_witness :
  fst (on_message telemetry_report online) = Returned VNone /\
  dict_get (settings (snd (on_message telemetry_report online))) "mz" = Some (VInt 0) /\
  In (signal_max_mz_changed, VInt 500) (emitted (snd (on_message telemetry_report online))).
Proof.
  destruct (state_report_telemetry_only_forwarded telemetry_report
              [("frequency", VFloat 1.5%float); ("max_mz", VInt 500); ("mz", VInt 28)]
              online eq_refl eq_refl) as (Hframe & _ & Hfwd & _).
  destruct (Hfwd eq_refl) as [Hr Hin'].
  assert (Hne : "mz" <> "mass_range") by discriminate.
  assert (Hin : In ("max_mz", signal_max_mz_changed) telemetry_keys)
    by (simpl; tauto).
  exact (conj Hr (conj (Hframe "mz" Hne) (Hin' "max_mz" _ (VInt 500) Hin eq_refl))).
Defined.

(** X3: a per-field report for mz that carries the value the mirror already
    holds, a value the signal of mz takes, still raises the mz notification;
    the mirror stays as it is. *)
Theorem same_value_report_still_notifies (m : message) (d : dict) (v : value)
    (s : engine) :
  msg_payload m = Utf8 (Json (VDict d)) ->
  route (msg_topic m) = B_field F_mz ->
  dict_get d "value" = Some v ->
  check_mz v = Returned tt ->
  signal_accepts signal_mz_changed v = true ->
  dict_get (settings s) "mz" = Some v ->
  fst (on_message m s) = Returned VNone /\
  settings (snd (on_message m s)) = settings s /\
  emitted (snd (on_message m s)) = (emitted s ++ [(signal_mz_changed, v)])%list.
Proof.
  intros Hp Hr Hd Hv Ha Hs. rewrite (on_message_json m (VDict d) s Hp), Hr.
  unfold dispatch. rewrite (handler_ok F_mz d v _ Hd Hv Ha). simpl.
  now rewrite (dict_set_same_value _ _ _ Hs).
Qed.

Lemma same_value_report_still_notifies_witness :
  settings (snd (on_message mz_report (with_settings (dict_set (settings online) "mz" (VInt 7)) online)))
  = dict_set (settings online) "mz" (VInt 7) /\
  emitted (snd (on_message mz_report (with_settings (dict_set (settings online) "mz" (VInt 7)) online)))
  = [(signal_mz_changed, VInt 7)].
Proof.
  destruct (same_value_report_still_notifies mz_report [("value", VInt 7)] (VInt 7)
              (with_settings (dict_set (settings online) "mz" (VInt 7)) online)
              eq_refl eq_refl eq_refl eq_refl eq_refl eq_refl) as (_ & Hs & He).
  exact (conj Hs He).
Defined.

(** ** The validators on integers and on calibration curves *)

(** X4: on integers, [check_mass_range] accepts exactly 0, 1 and 2 and
    [check_mz] accepts exactly the non-negative ones; the calibration curve
    [[1, 2], ["a", 3]] is rejected and [[1, 2], [3, 4]] is accepted. *)
Theorem validators_on_integers (z : Z) :
  passes (check_mass_range (VInt z)) = ((z =? 0) || (z =? 1) || (z =? 2))%Z /\
  passes (check_mz (VInt z)) = (0 <=? z)%Z /\
  verify_calib_points malformed_calib_value = Raised (Exn TypeError calib_msg) /\
  verify_calib_points (VList [VList [VInt 1; VInt 2]; VList [VInt 3; VInt 4]])
  = Returned tt.
Proof.
  repeat split.
  - unfold passes, check_mass_range, in_0_1_2, eq_small_int.
    now destruct ((z =? 0) || (z =? 1) || (z =? 2))%Z.
  - unfold passes, check_mz, lt_zero. simpl.
    rewrite Z.leb_antisym. now destruct (z <? 0)%Z.
Qed.

(** ** What every call keeps *)

Lemma getitem_raises (c : value) (k : string) (e : exn) :
  getitem c k = Raised e ->
  router_exn (exn_cls e) = true /\ exn_isinstance e ValueError = false.
Proof.
  destruct c as [| | | | | |d]; simpl; try (now intros [= <-]).
  destruct (dict_get d k); [discriminate|now intros [= <-]].
Qed.

Lemma py_in_raises (k : string) (c : value) (e : exn) :
  py_in k c = Raised e -> router_exn (exn_cls e) = true.
Proof. destruct c; simpl; try discriminate; now intros [= <-]. Qed.

Lemma validator_raises (F : field) (v : value) (e : exn) :
  validator F v = Raised e ->
  exn_isinstance e ValueError = true \/
  (exn_isinstance e ValueError = false /\ router_exn (exn_cls e) = true).
Proof.
  intros H. destruct (scalar F) eqn:S.
  - left. exact (scalar_validator_raises_ValueError F v e S H).
  - right. destruct F; try discriminate S; simpl in H;
      apply verify_calib_points_raises_TypeError in H; subst e; now split.
Qed.

Section Keeps.

Variable I : engine -> Prop.
Variable E : exn -> Prop.

Hypothesis I_log : forall s l, I s -> I (with_log l s).
Hypothesis I_emitted : forall s l, I s -> I (with_emitted l s).
Hypothesis I_settings : forall s F v,
    I s -> validator F v = Returned tt ->
    I (with_settings (dict_set (settings s) (field_key F) v) s).
Hypothesis E_router : forall e, router_exn (exn_cls e) = true -> E e.

Lemma keeps_ret {A} (a : A) : keeps I E (ret a).
Proof. intros s Hs. split; [exact Hs|discriminate]. Qed.

Lemma keeps_lift {A} (r : result A) :
  (forall e, r = Raised e -> E e) -> keeps I E (lift r).
Proof. intros H s Hs. split; [exact Hs|exact H]. Qed.

Lemma keeps_bind {A B} (c : M A) (k : A -> M B) :
  keeps I E c -> (forall a, keeps I E (k a)) -> keeps I E (bind c k).
Proof.
  intros Hc Hk s Hs. unfold bind.
  destruct (Hc s Hs) as [Hi He].
  destruct (c s) as [[a|e] s']; simpl in *.
  - exact (Hk a s' Hi).
  - split; [exact Hi|]. intros e' [= <-]. now apply He.
Qed.

Lemma keeps_try {A} (E' : exn -> Prop) (c : M A) (cls : exn_class)
    (handler : exn -> M A) :
  (forall s, I s ->
     I (snd (c s)) /\ (forall e, fst (c s) = Raised e -> E' e)) ->
  (forall e, E' e -> exn_isinstance e cls = true -> keeps I E (handler e)) ->
  (forall e, E' e -> exn_isinstance e cls = false -> E e) ->
  keeps I E (try_except c cls handler).
Proof.
  intros Hc Hh He s Hs. unfold try_except.
  destruct (Hc s Hs) as [Hi Hr].
  destruct (c s) as [[a|e] s']; simpl in *.
  - split; [exact Hi|discriminate].
  - destruct (exn_isinstance e cls) eqn:C.
    + exact (Hh e (Hr e eq_refl) C s' Hi).
    + split; [exact Hi|]. intros e' [= <-]. exact (He e (Hr e eq_refl) C).
Qed.

Lemma keeps_logger (lvl : level) (msg : string) (args : list value) :
  keeps I E (logger lvl msg args).
Proof. intros s Hs. split; [now apply I_log|discriminate]. Qed.

Lemma keeps_emit (sig : signal) (v : value) : keeps I E (emit sig v).
Proof.
  intros s Hs. unfold emit. destruct (signal_accepts sig v); simpl.
  - split; [now apply I_emitted|discriminate].
  - split; [exact Hs|]. intros e [= <-]. now apply E_router.
Qed.

Lemma keeps_getitem (c : value) (k : string) : keeps I E (lift (getitem c k)).
Proof.
  apply keeps_lift. intros e H. apply E_router.
  exact (proj1 (getitem_raises c k e H)).
Qed.

Lemma keeps_log_func {A} (name : string) (args : list value) (func : M A) :
  keeps I E func -> keeps I E (log_func name args func).
Proof.
  intros H. unfold log_func. apply keeps_bind; [apply keeps_logger|].
  intros _. exact H.
Qed.

Lemma keeps_if_in (key : string) (payload : value) (body : M unit) :
  keeps I E body -> keeps I E (if_in key payload body).
Proof.
  intros H. unfold if_in. apply keeps_bind.
  - apply keeps_lift. intros e He. apply E_router. exact (py_in_raises _ _ _ He).
  - intros [|]; [exact H|apply keeps_ret].
Qed.

Lemma keeps_forward (sig : signal) (payload : value) (key label : string) :
  keeps I E (forward sig payload key label).
Proof.
  unfold forward.
  apply keeps_bind; [apply keeps_getitem|]. intros v.
  apply keeps_bind; [apply keeps_emit|]. intros _.
  apply keeps_bind; [apply keeps_getitem|]. intros v'.
  apply keeps_logger.
Qed.

(** The guarded write every inbound update goes through: the value is
    written only after the validator of the field has returned. *)
Lemma keeps_checked_write {A} (F : field) (payload : value) (key : string)
    (k : value -> M A) :
  (forall v, keeps I E (k v)) ->
  forall s, I s ->
    let c := (v <- lift (getitem payload key) ;;
              lift (validator F v) ;;
              v <- lift (getitem payload key) ;;
              settings_setitem (field_key F) v ;;
              k v) in
    I (snd (c s)) /\
    (forall e, fst (c s) = Raised e ->
               exn_isinstance e ValueError = true \/
               (exn_isinstance e ValueError = false /\ E e)).
Proof.
  intros Hk s Hs. cbv zeta. unfold bind, lift, settings_setitem.
  destruct (getitem payload key) as [v|e] eqn:G.
  - destruct (validator F v) as [[]|e] eqn:V.
    + destruct (Hk v _ (I_settings s F v Hs V)) as [Hi He].
      split; [exact Hi|]. intros e H.
      destruct (exn_isinstance e ValueError) eqn:C; [now left|right].
      split; [reflexivity|now apply He].
    + simpl. split; [exact Hs|]. intros e' [= <-].
      destruct (validator_raises F v e V) as [C|[C R]]; [now left|right].
      split; [exact C|now apply E_router].
  - simpl. split; [exact Hs|]. intros e' [= <-]. right.
    destruct (getitem_raises _ _ _ G) as [R C]. split; [exact C|].
    now apply E_router.
Qed.

Lemma keeps_validated_update (F : field) (payload : value) :
  keeps I E (validated_update (validator F) (field_key F) (field_signal F) payload).
Proof.
  unfold validated_update.
  apply (keeps_try (fun e => exn_isinstance e ValueError = true \/
                             (exn_isinstance e ValueError = false /\ E e))).
  - intros s Hs.
    apply (keeps_checked_write F payload "value"
             (fun _ => v <- lift (getitem payload "value") ;;
                       emit (field_signal F) v)); [|exact Hs].
    intros _. apply keeps_bind; [apply keeps_getitem|]. intros v.
    apply keeps_emit.
  - intros e _ _. apply keeps_logger.
  - intros e [C|[_ He]] C'; [congruence|exact He].
Qed.

Lemma keeps_handler (F : field) (payload : value) : keeps I E (handler F payload).
Proof.
  intros s. rewrite handler_unfold. revert s.
  apply keeps_log_func. apply keeps_bind; [apply keeps_validated_update|].
  intros _. apply keeps_ret.
Qed.

Lemma keeps_handle_max_mz (payload : value) : keeps I E (handle_max_mz payload).
Proof.
  unfold handle_max_mz. apply keeps_log_func.
  apply keeps_bind; [apply keeps_getitem|]. intros v.
  apply keeps_bind; [apply keeps_emit|]. intros _. apply keeps_ret.
Qed.

Lemma keeps_handle_device_error (m : message) : keeps I E (handle_device_error m).
Proof.
  unfold handle_device_error.
  apply keeps_bind; [apply keeps_logger|]. intros _.
  apply keeps_bind; [apply keeps_emit|]. intros _. apply keeps_ret.
Qed.

Lemma keeps_handle_device_state (payload : value) :
  keeps I E (handle_device_state payload).
Proof.
  unfold handle_device_state. apply keeps_log_func.
  apply keeps_bind.
  { apply keeps_if_in.
    apply (keeps_try (fun e => exn_isinstance e ValueError = true \/
                               (exn_isinstance e ValueError = false /\ E e))).
    - intros s Hs.
      apply (keeps_checked_write F_mass_range payload "range"
               (fun _ => v <- lift (getitem payload "range") ;;
                         emit signal_mass_range_changed v ;;
                         v <- lift (getitem payload "range") ;;
                         logger DEBUG "Mass range: {}" [v])); [|exact Hs].
      intros _. apply keeps_bind; [apply keeps_getitem|]. intros v.
      apply keeps_bind; [apply keeps_emit|]. intros _.
      apply keeps_bind; [apply keeps_getitem|]. intros v'.
      apply keeps_logger.
    - intros e _ _. apply keeps_logger.
    - intros e [C|[_ He]] C'; [congruence|exact He]. }
  intros _.
  repeat (apply keeps_bind;
          [apply keeps_if_in; apply keeps_forward|intros _]).
  apply keeps_ret.
Qed.

Lemma keeps_received (m : message) : keeps I E (received m).
Proof.
  unfold received.
  apply keeps_bind; [apply keeps_logger|]. intros _.
  apply keeps_bind.
  { apply (keeps_try (fun e => exn_cls e = UnicodeDecodeError \/
                               exn_cls e = JSONDecodeError)).
    - intros s Hs. unfold bind, lift.
      destruct (msg_payload m) as [|[|v]]; simpl;
        (split; [exact Hs|]); try discriminate; intros e [= <-]; auto.
    - intros e _ _. apply keeps_bind; [apply keeps_logger|].
      intros _. apply keeps_ret.
    - intros e [C|C] C'; [apply E_router; now rewrite C|].
      destruct e as [[] msg]; simpl in C, C'; discriminate. }
  intros payload.
  apply keeps_bind; [apply keeps_logger|]. intros _. apply keeps_ret.
Qed.

(** A message whose topic does not hold [/connected/]. *)
Lemma keeps_on_message_report (m : message) :
  contains "/connected/" (msg_topic m) = false ->
  keeps I E (on_message m).
Proof.
  intros Ht s. rewrite on_message_unfold. revert s.
  apply keeps_bind; [apply keeps_received|]. intros payload.
  assert (R : route (msg_topic m) <> B_connected).
  { unfold route. rewrite Ht.
    repeat match goal with
           | |- context [if ?b then _ else _] => destruct b
           end; discriminate. }
  destruct (route (msg_topic m)); simpl; try congruence.
  - apply keeps_handle_device_error.
  - apply keeps_handle_device_state.
  - apply keeps_handler.
  - apply keeps_handle_max_mz.
  - apply keeps_ret.
Qed.

Hypothesis I_published : forall s l, I s -> I (with_published l s).

Lemma keeps_client_connected (func : M value) :
  keeps I E func -> keeps I E (client_connected func).
Proof.
  intros H s Hs. unfold client_connected.
  destruct (is_connected s); simpl; [exact (H s Hs)|].
  split; [now apply I_log|discriminate].
Qed.

Lemma keeps_request (name code : string) :
  keeps I E
    (client_connected
       (log_func name []
          (t <- cmnd_topic code ;;
           client_publish t (json_dumps (VDict [])) ;;
           ret VNone))).
Proof.
  apply keeps_client_connected, keeps_log_func.
  intros s Hs. unfold bind, cmnd_topic, client_publish, ret. simpl.
  split; [now apply I_published|discriminate].
Qed.

Lemma keeps_handle_device_connected (m : message) :
  keeps I E (handle_device_connected m).
Proof.
  unfold handle_device_connected.
  apply keeps_bind; [apply keeps_logger|]. intros _.
  apply keeps_bind; [apply keeps_emit|]. intros _.
  apply keeps_bind; [apply keeps_request|]. intros _.
  apply keeps_bind; [apply keeps_request|]. intros _.
  apply keeps_bind; [apply keeps_request|]. intros _.
  apply keeps_bind; [apply keeps_request|]. intros _.
  apply keeps_ret.
Qed.

Lemma keeps_on_message (m : message) : keeps I E (on_message m).
Proof.
  destruct (contains "/connected/" (msg_topic m)) eqn:Ht.
  - intros s. rewrite on_message_unfold. revert s.
    apply keeps_bind; [apply keeps_received|]. intros payload.
    rewrite (route_connected _ Ht). apply keeps_handle_device_connected.
  - now apply keeps_on_message_report.
Qed.

End Keeps.

(** ** The mirror stays valid *)

Lemma valid_mirror_iff (d : dict) :
  valid_mirror d = true <-> forall F, field_passes (VDict d) F = true.
Proof.
  unfold valid_mirror. rewrite forallb_forall. split.
  - intros H F. apply H. destruct F; simpl; tauto.
  - intros H F _. apply H.
Qed.

Lemma valid_mirror_set (d : dict) (F : field) (v : value) :
  valid_mirror d = true ->
  validator F v = Returned tt ->
  valid_mirror (dict_set d (field_key F) v) = true.
Proof.
  rewrite !valid_mirror_iff. intros Hd Hv G.
  unfold field_passes, getitem.
  destruct (String.eqb_spec (field_key G) (field_key F)) as [Ek|Ek].
  - apply field_key_inj in Ek. subst G.
    rewrite dict_get_set_same. now apply validator_passes_load.
  - rewrite dict_get_set_other by exact Ek. exact (Hd G).
Qed.

Lemma on_message_keeps_valid (m : message) (s : engine) :
  valid_mirror (settings s) = true ->
  valid_mirror (settings (snd (on_message m s))) = true.
Proof.
  intros Hs.
  refine (proj1 (keeps_on_message (fun s => valid_mirror (settings s) = true)
                   (fun _ => True) _ _ _ _ _ m s Hs)); simpl; auto.
  intros s' F v Hv Hc. now apply valid_mirror_set.
Qed.

Lemma publish_keeps_valid (F : field) (v : value) (s : engine) :
  valid_mirror (settings s) = true ->
  valid_mirror (settings (snd (publish F v s))) = true.
Proof.
  intros Hs. destruct (is_connected s) eqn:Hc.
  - destruct (validator F v) as [[]|e] eqn:Hv.
    + rewrite (publish_on_valid F v s Hc Hv). simpl. now apply valid_mirror_set.
    + now rewrite (publish_on_invalid F v e s Hc Hv).
  - now rewrite (publish_off F v s Hc).
Qed.

Lemma request_keeps_settings (name code : string) (s : engine) :
  settings (snd (client_connected
                   (log_func name []
                      (t <- cmnd_topic code ;;
                       client_publish t (json_dumps (VDict [])) ;;
                       ret VNone)) s))
  = settings s.
Proof.
  unfold client_connected. now destruct (is_connected s).
Qed.

Lemma load_settings_unreadable (name : string) (s : engine) :
  (forall doc, file_lookup (files s) name <> Some (Utf8 (Json doc))) ->
  exists e, load_settings name s = (Raised e, s).
Proof.
  intros H. unfold load_settings, json_load_file, bind at 1.
  destruct (file_lookup (files s) name) as [[|[|doc]]|].
  - eexists. reflexivity.
  - eexists. reflexivity.
  - now destruct (H doc).
  - eexists. reflexivity.
Qed.

Lemma load_settings_outcome (name : string) (s : engine) :
  (is_raised (fst (load_settings name s)) = true /\
   settings (snd (load_settings name s)) = settings s /\
   published (snd (load_settings name s)) = published s /\
   emitted (snd (load_settings name s)) = emitted s) \/
  (fst (load_settings name s) = Returned VNone /\
   valid_mirror (settings (snd (load_settings name s))) = true /\
   file_lookup (files s) name
   = Some (Utf8 (Json (VDict (settings (snd (load_settings name s))))))).
Proof.
  destruct (file_lookup (files s) name) as [[|[|doc]]|] eqn:Hf;
    try (left;
         destruct (load_settings_unreadable name s) as [e ->];
         [intros doc; rewrite Hf; discriminate|now simpl]).
  rewrite (load_settings_unfold name doc s Hf).
  pose proof (check_fields_passes doc all_fields) as Hr.
  destruct (check_fields doc all_fields) as [[]|e].
  - right. cbn [is_raised] in Hr. symmetry in Hr. apply negb_false_iff in Hr.
      assert (Hall : forall F, field_passes doc F = true).
      { rewrite forallb_forall in Hr. intros F. apply Hr.
        destruct F; simpl; tauto. }
      destruct (field_passes_dict _ _ (Hall F_mz)) as (d & _ & -> & _).
      destruct (load_publish_valid d s Hall) as (R & S & _).
      rewrite R, S. repeat split. now apply valid_mirror_iff.
  - left. now simpl.
Qed.

Lemma perform_keeps_valid (o : operation) (s : engine) :
  valid_mirror (settings s) = true ->
  valid_mirror (settings (snd (perform o s))) = true.
Proof.
  intros Hs. destruct o as [m|F v| | | | |name|name|up|name content]; simpl.
  - now apply on_message_keeps_valid.
  - now apply publish_keeps_valid.
  - unfold request_device_state. now rewrite request_keeps_settings.
  - unfold request_dc_offst. now rewrite request_keeps_settings.
  - unfold request_calib_points_mz. now rewrite request_keeps_settings.
  - unfold request_calib_points_resolution. now rewrite request_keeps_settings.
  - destruct (load_settings_outcome name s) as [(_ & S & _)|(_ & V & _)].
    + now rewrite S.
    + exact V.
  - exact Hs.
  - exact Hs.
  - exact Hs.
Qed.

Lemma run_keeps_valid (ops : list operation) (s : engine) :
  valid_mirror (settings s) = true ->
  valid_mirror (settings (run ops s)) = true.
Proof.
  revert s. induction ops as [|o ops IH]; intros s Hs; simpl; [exact Hs|].
  apply IH. now apply perform_keeps_valid.
Qed.

(** X5: whatever the transport delivers and whatever the front-end calls,
    in any order and whether or not a call raised, the settings mirror of an
    engine built by [__init__] holds all seven fields and each of them passes
    its validator: no inbound, outbound or load path writes a value it has
    not validated. *)
Theorem reachable_mirror_is_valid (ops : list operation) (base device : string) :
  valid_mirror (settings (run ops (init base device))) = true /\
  forall F, exists v,
    dict_get (settings (run ops (init base device))) (field_key F) = Some v /\
    validator F v = Returned tt.
Proof.
  assert (H : valid_mirror (settings (run ops (init base device))) = true)
    by (apply run_keeps_valid; reflexivity).
  split; [exact H|]. intros F.
  rewrite valid_mirror_iff in H.
  destruct (field_passes_dict _ _ (H F)) as (d & v & E & Hd & Hv).
  injection E as <-. now exists v.
Qed.

Lemma load_saved (name : string) (s other : engine) :
  valid_mirror (settings s) = true ->
  files other = files (snd (save_settings name s)) ->
  fst (load_settings name other) = Returned VNone /\
  settings (snd (load_settings name other)) = settings s.
Proof.
  intros Hv Ho. rewrite valid_mirror_iff in Hv.
  assert (Hf : file_lookup (files other) name
               = Some (Utf8 (Json (VDict (settings s)))))
    by (rewrite Ho; apply file_lookup_saved).
  rewrite (load_settings_unfold name _ other Hf).
  pose proof (check_fields_passes (VDict (settings s)) all_fields) as Hr.
  assert (Hb : forallb (field_passes (VDict (settings s))) all_fields = true).
  { apply forallb_forall. intros F _. apply Hv. }
  rewrite Hb in Hr. cbn [negb] in Hr.
  destruct (check_fields (VDict (settings s)) all_fields) as [[]|e];
    [|discriminate].
  destruct (load_publish_valid (settings s) other Hv) as (R & S & _).
  now split.
Qed.

(** X6: on an engine built by [__init__] and driven by any sequence of
    calls, once [save_settings] has written its file and returned, loading
    that file back returns normally and leaves the mirror exactly as it was
    before the save. *)
Theorem reachable_save_load (ops : list operation) (base device name : string)
    (saved : engine) :
  save_settings name (run ops (init base device)) = (Returned VNone, saved) ->
  fst (load_settings name saved) = Returned VNone /\
  settings (snd (load_settings name saved))
  = settings (run ops (init base device)).
Proof.
  intros Es.
  assert (Hv : valid_mirror (settings (run ops (init base device))) = true)
    by (apply run_keeps_valid; reflexivity).
  apply (load_saved name _ saved Hv). now rewrite Es.
Qed.

Lemma reachable_save_load_witness :
  fst (load_settings "settings.json"
         (snd (save_settings "settings.json"
                 (run [Op_session true; Op_publish F_mz (VInt 5)]
                      (init "qsource3" "dev")))))
  = Returned VNone /\
  settings (snd (load_settings "settings.json"
         (snd (save_settings "settings.json"
                 (run [Op_session true; Op_publish F_mz (VInt 5)]
                      (init "qsource3" "dev"))))))
  = settings (run [Op_session true; Op_publish F_mz (VInt 5)]
                  (init "qsource3" "dev")).
Proof.
  exact (reachable_save_load [Op_session true; Op_publish F_mz (VInt 5)]
           "qsource3" "dev" "settings.json"
           (snd (save_settings "settings.json"
                   (run [Op_session true; Op_publish F_mz (VInt 5)]
                        (init "qsource3" "dev"))))
           eq_refl).
Defined.

(** ** What an inbound report never does *)

(** X7: a message whose topic does not hold [/connected/] never makes the
    engine publish: whatever the topic, the payload and the outcome, the
    list of published messages is the one from before the call. *)
Theorem report_never_publishes (m : message) (s : engine) :
  contains "/connected/" (msg_topic m) = false ->
  published (snd (on_message m s)) = published s.
Proof.
  intros Ht.
  refine (proj1 (keeps_on_message_report
                   (fun s' => published s' = published s) (fun _ => True)
                   _ _ _ _ m Ht s eq_refl)); simpl; auto.
Qed.

Lemma report_never_publishes_witness :
  published (snd (on_message max_mz_report online)) = [] /\
  published (snd (on_message malformed_calib_report online)) = [].
Proof.
  exact (conj (report_never_publishes max_mz_report online eq_refl)
              (report_never_publishes malformed_calib_report online eq_refl)).
Defined.

(** ** Exceptions that leave the router *)

Lemma on_message_raises_router_exn (m : message) (s : engine) (e : exn) :
  fst (on_message m s) = Raised e -> router_exn (exn_cls e) = true.
Proof.
  refine (proj2 (keeps_on_message (fun _ => True)
                   (fun e => router_exn (exn_cls e) = true)
                   _ _ _ _ _ m s Logic.I) e); auto.
Qed.

(** An exception that leaves a handler is the [TypeError] of an [emit]
    that refused its argument, or it was raised before the first write and
    the engine differs from [s] in its log only. *)
Lemma handler_raised_state (F : field) (payload : value) (s : engine) (e : exn) :
  fst (handler F payload s) = Raised e ->
  e = emit_error \/ exists l, snd (handler F payload s) = with_log l s.
Proof.
  rewrite handler_unfold.
  unfold log_func, validated_update, try_except, bind, lift, logger,
    settings_setitem, emit, ret.
  destruct (getitem payload "value") as [v|e0].
  - destruct (validator F v) as [[]|e1].
    + simpl. destruct (signal_accepts (field_signal F) v); simpl;
        [discriminate|]. intros [= <-]. now left.
    + destruct (exn_isinstance e1 ValueError); simpl; [discriminate|].
      intros _. right. eexists. reflexivity.
  - destruct (exn_isinstance e0 ValueError); simpl; [discriminate|].
    intros _. right. eexists. reflexivity.
Qed.

Lemma handle_max_mz_raised_state (payload : value) (s : engine) (e : exn) :
  fst (handle_max_mz payload s) = Raised e ->
  e = emit_error \/ exists l, snd (handle_max_mz payload s) = with_log l s.
Proof.
  unfold handle_max_mz, log_func, bind, lift, logger, emit, ret.
  destruct (getitem payload "value") as [v|e0]; simpl.
  - destruct (signal_accepts signal_max_mz_changed v); simpl; [discriminate|].
    intros [= <-]. now left.
  - intros _. right. eexists. reflexivity.
Qed.

Lemma bind_inert {A B} (c : M A) (k : A -> M B) (s : engine) :
  snd (c s) = s -> (forall a, snd (k a s) = s) -> snd (bind c k s) = s.
Proof.
  intros Hc Hk. unfold bind. destruct (c s) as [[a|e] s']; simpl in *.
  - subst s'. apply Hk.
  - exact Hc.
Qed.

Lemma if_in_forward_inert (sig : signal) (payload : value) (key label : string)
    (s : engine) :
  (forall k, is_raised (getitem payload k) = true) ->
  snd (if_in key payload (forward sig payload key label) s) = s.
Proof.
  intros H. unfold if_in, forward, bind, lift.
  destruct (py_in key payload) as [[|]|e]; simpl; try reflexivity.
  specialize (H key). now destruct (getitem payload key).
Qed.

Lemma handle_device_state_raised_state (payload : value) (s : engine) (e : exn) :
  fst (handle_device_state payload s) = Raised e ->
  e = emit_error \/ exists l, snd (handle_device_state payload s) = with_log l s.
Proof.
  destruct payload as [| | | | | |d];
    try (intros _; right; eexists;
         unfold handle_device_state, log_func;
         (erewrite bind_returned by reflexivity);
         (repeat (apply bind_inert;
                  [first [ apply if_in_forward_inert; reflexivity
                         | unfold if_in, try_except, bind, lift;
                           match goal with
                           | |- context [py_in ?k ?p] =>
                               destruct (py_in k p) as [[|]|?]
                           end; reflexivity ]
                  | intros _ ])); reflexivity).
  destruct (handle_device_state_dict d s) as (_ & _ & _ & R & X).
  destruct (forallb accepted (state_report_emissions d)).
  - rewrite (R eq_refl). discriminate.
  - rewrite (X eq_refl). intros [= <-]. now left.
Qed.

Lemma handle_device_connected_returns (m : message) (s : engine) :
  fst (handle_device_connected m s) = Returned VNone.
Proof.
  destruct (is_connected s) eqn:Hc.
  - destruct (handle_device_connected_on m s Hc) as (s' & E & _). now rewrite E.
  - destruct (handle_device_connected_off m s Hc) as (s' & E & _). now rewrite E.
Qed.

Lemma dispatch_raised_state (b : branch) (m : message) (payload : value)
    (s : engine) (e : exn) :
  fst (dispatch b m payload s) = Raised e ->
  e = emit_error \/ exists l, snd (dispatch b m payload s) = with_log l s.
Proof.
  destruct b as [| | |F| |]; simpl.
  - now rewrite handle_device_connected_returns.
  - discriminate.
  - apply handle_device_state_raised_state.
  - apply handler_raised_state.
  - apply handle_max_mz_raised_state.
  - discriminate.
Qed.

Lemma received_log_only (m : message) (s : engine) :
  exists l, snd (received m s) = with_log l s.
Proof.
  unfold received, bind, try_except, lift, logger, ret.
  destruct (msg_payload m) as [|[|v]]; simpl; eexists; reflexivity.
Qed.

Lemma on_message_raised_published (m : message) (s : engine) (e : exn) :
  fst (on_message m s) = Raised e ->
  published (snd (on_message m s)) = published s.
Proof.
  intros Hr. destruct (contains "/connected/" (msg_topic m)) eqn:Ht.
  - revert Hr. rewrite on_message_unfold, (route_connected _ Ht).
    unfold bind, dispatch.
    destruct (received_log_only m s) as [l El].
    destruct (received m s) as [[payload|e0] s1]; simpl in El; subst s1.
    + rewrite handle_device_connected_returns. discriminate.
    + reflexivity.
  - refine (proj1 (keeps_on_message_report
                     (fun s' => published s' = published s) (fun _ => True)
                     _ _ _ _ m Ht s eq_refl)); simpl; auto.
Qed.

(** X8: for a payload that is not UTF-8, or that decodes to a text
    [json.loads] parses or rejects as invalid JSON, the only exceptions that
    leave [on_message] are [KeyError], [TypeError] and [UnicodeDecodeError],
    never a validator's [ValueError] or a [JSONDecodeError].  When one does,
    nothing has been published; and unless it is the [TypeError] of an
    [emit] that refused its argument, the mirror and the notifications
    raised are exactly those from before the call: every other failure is
    met before the first write. *)
Theorem on_message_failure_is_clean (m : message) (v : value) (s : engine)
    (e : exn) :
  msg_payload m = NotUtf8 \/
  msg_payload m = Utf8 NotJson \/
  msg_payload m = Utf8 (Json v) ->
  fst (on_message m s) = Raised e ->
  router_exn (exn_cls e) = true /\
  published (snd (on_message m s)) = published s /\
  (e = emit_error \/
   (settings (snd (on_message m s)) = settings s /\
    emitted (snd (on_message m s)) = emitted s)).
Proof.
  intros Hp Hr. split; [exact (on_message_raises_router_exn m s e Hr)|].
  split; [exact (on_message_raised_published m s e Hr)|].
  assert (H : e = emit_error \/ exists l, snd (on_message m s) = with_log l s).
  { rewrite on_message_unfold in Hr |- *.
    destruct Hp as [Ep|[Ep|Ep]].
    - right. unfold received, bind, try_except, lift, logger. rewrite Ep. simpl.
      eexists. reflexivity.
    - erewrite bind_returned in Hr |- * by (apply received_not_json; exact Ep).
      destruct (dispatch_raised_state _ _ _ _ _ Hr) as [He|[l El]];
        [now left|right].
      rewrite El. eexists. reflexivity.
    - erewrite bind_returned in Hr |- * by (apply received_json; exact Ep).
      destruct (dispatch_raised_state _ _ _ _ _ Hr) as [He|[l El]];
        [now left|right].
      rewrite El. eexists. reflexivity. }
  destruct H as [He|[l ->]]; [now left|right]. now split.
Qed.

Lemma on_message_failure_is_clean_witness :
  router_exn TypeError = true /\
  settings (snd (on_message malformed_calib_report online)) = settings online /\
  emitted (snd (on_message malformed_calib_report online)) = [] /\
  published (snd (on_message malformed_calib_report online)) = [].
Proof.
  destruct (on_message_failure_is_clean malformed_calib_report
              (VDict [("value", malformed_calib_value)]) online
              (Exn TypeError calib_msg) (or_intror (or_intror eq_refl)) eq_refl)
    as (Hc & Hp & [He|[Hs Hem]]).
  - discriminate He.
  - exact (conj Hc (conj Hs (conj Hem Hp))).
Defined.

(** ** The shape of a calibration curve *)

Lemma verify_pairs_forallb (l : list value) :
  passes (verify_pairs l) = forallb number_pair l.
Proof.
  induction l as [|p l IH]; [reflexivity|].
  simpl verify_pairs. simpl forallb. rewrite <- IH. clear IH.
  destruct p as [| | | | |[|a [|b [|c q]]]|]; try reflexivity; simpl;
    destruct (isinstance_int_float a); simpl; try reflexivity;
    destruct (isinstance_int_float b); reflexivity.
Qed.

(** X9: [verify_calib_points] accepts exactly the lists whose every element
    is a list of exactly two numbers (booleans count as numbers); the empty
    list is accepted, and neither the order nor the range of the points is
    looked at.  [check_calib_points_mz] and [check_calib_points_resolution]
    accept exactly the same values. *)
Theorem calib_points_accepted_shape (v : value) :
  passes (verify_calib_points v) = pair_list v /\
  passes (check_calib_points_mz v) = pair_list v /\
  passes (check_calib_points_resolution v) = pair_list v /\
  verify_calib_points (VList []) = Returned tt.
Proof.
  assert (H : passes (verify_calib_points v) = pair_list v).
  { destruct v; try reflexivity. apply verify_pairs_forallb. }
  repeat split; try exact H.
  - rewrite <- H. unfold check_calib_points_mz, passes.
    destruct (verify_calib_points v) as [[]|e] eqn:V; [reflexivity|].
    apply verify_calib_points_raises_TypeError in V. now subst e.
  - rewrite <- H. unfold check_calib_points_resolution, passes.
    destruct (verify_calib_points v) as [[]|e] eqn:V; [reflexivity|].
    apply verify_calib_points_raises_TypeError in V. now subst e.
Qed.

Lemma load_validator_raises_ValueError (F : field) (v : value) (e : exn) :
  load_validator F v = Raised e -> exn_cls e = ValueError.
Proof.
  destruct F; simpl;
    unfold check_mass_range, check_mz, check_dc_offst, check_dc_offset,
      check_dc_on, check_rod_polarity_positive,
      check_calib_points_mz, check_calib_points_resolution;
    try (match goal with |- context [if ?b then _ else _] => destruct b end;
         now intros [= <-]);
    (destruct (verify_calib_points v) as [[]|e'] eqn:V; [discriminate|]);
    apply verify_calib_points_raises_TypeError in V; subst e'; simpl;
    now intros [= <-].
Qed.

(** X10: the validators do not raise one class of exception.  Every check
    [load_settings] makes raises [ValueError] when it fails, the two
    calibration checks included; [verify_calib_points], which the publish
    methods and the inbound handlers of the calibration curves call, raises
    [TypeError]. *)
Theorem validators_exception_classes (F : field) (v : value) (e : exn) :
  (load_validator F v = Raised e -> exn_cls e = ValueError) /\
  (validator F v = Raised e ->
   exn_cls e = (if scalar F then ValueError else TypeError)).
Proof.
  split; [apply load_validator_raises_ValueError|].
  intros H. destruct (scalar F) eqn:S.
  - destruct F; try discriminate S;
      match type of H with
      | validator ?G _ = _ => exact (load_validator_raises_ValueError G v e H)
      end.
  - destruct F; try discriminate S; simpl in H;
      apply verify_calib_points_raises_TypeError in H; now subst e.
Qed.

Lemma validators_exception_classes_witness :
  exn_cls (Exn ValueError ("Invalid calib_points_mz value. " ++ calib_msg)) = ValueError /\
  exn_cls (Exn TypeError calib_msg) = TypeError.
Proof.
  exact (conj
           (proj1 (validators_exception_classes F_calib_points_mz
                     malformed_calib_value
                     (Exn ValueError ("Invalid calib_points_mz value. " ++ calib_msg)))
                  eq_refl)
           (proj2 (validators_exception_classes F_calib_points_mz
                     malformed_calib_value (Exn TypeError calib_msg))
                  eq_refl)).
Defined.

(** ** What a load sends to the device *)

Lemma republish_step_published {A : Type} (Q : result A * engine -> Prop)
    (F : field) (k : M A) (d : dict) (s0 st : engine)
    (pubs : list (string * text)) :
  loading d s0 pubs st ->
  field_passes (VDict d) F = true ->
  (forall st',
     loading d s0
       (pubs ++ (if is_connected s0 then [field_message s0 d F] else []))%list st' ->
     Q (k st')) ->
  Q ((settings <- settings_object ;;
      v <- lift (getitem settings (field_key F)) ;;
      publish F v ;;
      k) st).
Proof.
  intros (S & P & Em & C & B & D) HF Hk.
  destruct (field_passes_dict _ _ HF) as (d' & v & E & Hd & Hv).
  injection E as <-.
  unfold settings_object, bind, lift, getitem. rewrite S, Hd.
  unfold field_message in Hk. rewrite Hd in Hk.
  destruct (is_connected s0) eqn:Hc.
  - rewrite (publish_on_valid F v st C Hv).
    apply Hk. unfold loading, command_topic. simpl.
    rewrite S, (dict_set_same_value _ _ _ Hd), P, B, D.
    repeat split; congruence.
  - rewrite (publish_off F v st C).
    apply Hk. unfold loading. simpl. rewrite app_nil_r.
    repeat split; congruence.
Qed.

Ltac load_step F L :=
  match goal with
  | |- context [fst (?c ?st)] => pattern (c st)
  end;
  match goal with
  | |- ?P (_ ?st) => apply (republish_step_published P F _ _ _ st _ L)
  end.

(** X11: when the file holds a record whose seven fields pass their
    validators, [load_settings] sends the seven values to the device, each to
    the command topic of its field, in the order mass_range, mz, dc_offst,
    dc_on, rod_polarity_positive, calib_points_mz, calib_points_resolution,
    if the transport session is up; if it is not, the mirror is replaced all
    the same and nothing is sent.  Either way no change notification is
    raised. *)
Theorem load_settings_publishes (name : string) (d : dict) (s : engine) :
  file_lookup (files s) name = Some (Utf8 (Json (VDict d))) ->
  valid_mirror d = true ->
  fst (load_settings name s) = Returned VNone /\
  settings (snd (load_settings name s)) = d /\
  published (snd (load_settings name s))
  = (published s ++ (if is_connected s then snapshot_messages s d else []))%list /\
  emitted (snd (load_settings name s)) = emitted s.
Proof.
  intros Hf Hv. rewrite valid_mirror_iff in Hv.
  rewrite (load_settings_unfold name _ s Hf).
  pose proof (check_fields_passes (VDict d) all_fields) as Hr.
  assert (Hb : forallb (field_passes (VDict d)) all_fields = true).
  { apply forallb_forall. intros F _. apply Hv. }
  rewrite Hb in Hr. cbn [negb] in Hr.
  destruct (check_fields (VDict d) all_fields) as [[]|e]; [|discriminate].
  unfold load_publish. erewrite bind_returned by reflexivity.
  assert (L0 : loading d s (published s) (with_settings d s))
    by now unfold loading.
  load_step F_mass_range L0; [apply Hv|]. intros s1 L1.
  load_step F_mz L1; [apply Hv|]. intros s2 L2.
  load_step F_dc_offst L2; [apply Hv|]. intros s3 L3.
  load_step F_dc_on L3; [apply Hv|]. intros s4 L4.
  load_step F_rod_polarity_positive L4; [apply Hv|]. intros s5 L5.
  load_step F_calib_points_mz L5; [apply Hv|]. intros s6 L6.
  load_step F_calib_points_resolution L6; [apply Hv|].
  intros s7 (S & P & Em & _). unfold ret. simpl.
  repeat split; try assumption. rewrite P.
  unfold snapshot_messages, all_fields. destruct (is_connected s); simpl.
  - now rewrite <- !app_assoc.
  - now rewrite !app_nil_r.
Qed.

Lemma load_settings_publishes_witness :
  published (snd (load_settings "good.json" with_snapshots))
  = [ ("qsource3/cmnd/dev/range", Json (VDict [("value", VInt 2)]));
      ("qsource3/cmnd/dev/mz", Json (VDict [("value", VFloat 28.5%float)]));
      ("qsource3/cmnd/dev/dc_offst", Json (VDict [("value", VFloat (-0.25)%float)]));
      ("qsource3/cmnd/dev/is_dc_on", Json (VDict [("value", VBool false)]));
      ("qsource3/cmnd/dev/is_rod_polarity_positive", Json (VDict [("value", VBool true)]));
      ("qsource3/cmnd/dev/calib_pnts_rf",
       Json (VDict [("value", VList [VList [VInt 0; VInt 0];
                                     VList [VInt 100; VFloat 99.5%float]])]));
      ("qsource3/cmnd/dev/calib_pnts_dc",
       Json (VDict [("value", VList [VList [VInt 0; VInt 1]])])) ] /\
  published (snd (load_settings "good.json" (with_connected false with_snapshots)))
  = [] /\
  settings (snd (load_settings "good.json" (with_connected false with_snapshots)))
  = good_snapshot.
Proof.
  destruct (load_settings_publishes "good.json" good_snapshot with_snapshots
              eq_refl eq_refl) as (_ & _ & Hp & _).
  destruct (load_settings_publishes "good.json" good_snapshot
              (with_connected false with_snapshots) eq_refl eq_refl)
    as (_ & Hs & Hp' & _).
  exact (conj Hp (conj Hp' Hs)).
Defined.

(** ** The slots of the front-end *)

Lemma verify_calib_points_pair_list (v : value) :
  passes (verify_calib_points v) = pair_list v.
Proof. destruct v; try reflexivity. apply verify_pairs_forallb. Qed.

Lemma calib_slot_run (F : field) (widget : Gui.line_edit) (t : text)
    (w : Gui.window) :
  scalar F = false ->
  exists l g,
    Gui.gbind
      (Gui.gtry
         (Gui.gbind (Gui.glift (json_loads t)) (fun calib_points =>
          Gui.gbind (Gui.in_logic (publish F calib_points)) (fun _ =>
          Gui.set_color widget Gui.COLOR_VALID)))
         [JSONDecodeError; TypeError]
         (fun e => Gui.gbind (Gui.logger_debug e) (fun _ =>
                   Gui.set_color widget Gui.COLOR_INVALID)))
      (fun _ => Gui.gret VNone) w
    = (Returned VNone,
       snd (Gui.set_color widget
              (if calib_text_shown_valid t (Gui.client_logic w)
               then Gui.COLOR_VALID else Gui.COLOR_INVALID)
              (Gui.mkWindow l (Gui.style_calib_points_mz w)
                 (Gui.style_calib_points_resolution w)
                 (Gui.message_boxes w) g))) /\
    settings l = calib_text_mirror F t (Gui.client_logic w) /\
    (calib_text_shown_valid t (Gui.client_logic w) = true -> g = Gui.gui_log w).
Proof.
  intros HF. unfold Gui.gbind, Gui.gtry, Gui.glift, Gui.in_logic.
  destruct t as [|v]; simpl json_loads.
  - simpl. do 2 eexists. split; [reflexivity|]. split; [reflexivity|discriminate].
  - unfold calib_text_shown_valid, calib_text_mirror.
    destruct (is_connected (Gui.client_logic w)) eqn:Hc.
    + rewrite <- verify_calib_points_pair_list. unfold passes.
      assert (Ev : validator F v = verify_calib_points v)
        by (destruct F; try discriminate HF; reflexivity).
      destruct (verify_calib_points v) as [[]|e] eqn:Hv.
      * rewrite (publish_on_valid F v _ Hc Ev). simpl.
        do 2 eexists. split; [reflexivity|]. now split.
      * rewrite (publish_on_invalid F v e _ Hc Ev).
        apply verify_calib_points_raises_TypeError in Hv. subst e. simpl.
        do 2 eexists. split; [reflexivity|]. split; [reflexivity|discriminate].
    + rewrite (publish_off F v _ Hc). simpl.
      do 2 eexists. split; [reflexivity|]. now split.
Qed.

(** X12: for a text that [json.loads] parses or rejects as invalid JSON,
    the two calibration text slots return normally.  While the transport
    session is up, the field is shown valid ([color: black]) exactly when
    the text is JSON for a list of number pairs, and exactly then the mirror
    takes the curve; otherwise it is shown invalid ([color: red]) and the
    mirror is untouched.  While the session is down nothing is validated:
    any JSON text is shown valid, whatever its shape, and the mirror never
    changes. *)
Theorem calib_text_slot_feedback (t : text) (v : value) (w : Gui.window) :
  t = NotJson \/ t = Json v ->
  (fst (Gui.on_calib_points_mz_changed t w) = Returned VNone /\
   Gui.style_calib_points_mz (snd (Gui.on_calib_points_mz_changed t w))
   = (if calib_text_shown_valid t (Gui.client_logic w)
      then Gui.COLOR_VALID else Gui.COLOR_INVALID) /\
   settings (Gui.client_logic (snd (Gui.on_calib_points_mz_changed t w)))
   = calib_text_mirror F_calib_points_mz t (Gui.client_logic w)) /\
  (fst (Gui.on_calib_points_resolution_changed t w) = Returned VNone /\
   Gui.style_calib_points_resolution
     (snd (Gui.on_calib_points_resolution_changed t w))
   = (if calib_text_shown_valid t (Gui.client_logic w)
      then Gui.COLOR_VALID else Gui.COLOR_INVALID) /\
   settings (Gui.client_logic (snd (Gui.on_calib_points_resolution_changed t w)))
   = calib_text_mirror F_calib_points_resolution t (Gui.client_logic w)).
Proof.
  intros _. split.
  - destruct (calib_slot_run F_calib_points_mz Gui.txt_calib_points_mz_value
                t w eq_refl) as (l & g & E & S & _).
    unfold Gui.on_calib_points_mz_changed.
    change publish_calib_points_mz with (publish F_calib_points_mz).
    rewrite E. simpl. now repeat split.
  - destruct (calib_slot_run F_calib_points_resolution
                Gui.txt_calib_points_resolution_value t w eq_refl)
      as (l & g & E & S & _).
    unfold Gui.on_calib_points_resolution_changed.
    change publish_calib_points_resolution
      with (publish F_calib_points_resolution).
    rewrite E. simpl. now repeat split.
Qed.

Lemma calib_text_slot_feedback_witness :
  fst (Gui.on_calib_points_mz_changed typed_malformed_curve (Gui.around offline))
  = Returned VNone /\
  Gui.style_calib_points_mz
    (snd (Gui.on_calib_points_mz_changed typed_malformed_curve (Gui.around offline)))
  = Gui.COLOR_VALID /\
  Gui.style_calib_points_resolution
    (snd (Gui.on_calib_points_resolution_changed typed_malformed_curve
            (Gui.around online)))
  = Gui.COLOR_INVALID /\
  settings (Gui.client_logic
              (snd (Gui.on_calib_points_resolution_changed typed_malformed_curve
                      (Gui.around online))))
  = settings online.
Proof.
  destruct (calib_text_slot_feedback typed_malformed_curve malformed_calib_value
              (Gui.around offline) (or_intror eq_refl)) as [(H1 & H2 & _) _].
  destruct (calib_text_slot_feedback typed_malformed_curve malformed_calib_value
              (Gui.around online) (or_intror eq_refl)) as [_ (_ & H3 & H4)].
  exact (conj H1 (conj H2 (conj H3 H4))).
Defined.

Lemma check_fields_raises_ValueError (d : dict) (Fs : list field) (e : exn) :
  (forall F, dict_has d (field_key F) = true) ->
  check_fields (VDict d) Fs = Raised e ->
  exn_cls e = ValueError.
Proof.
  intros Hk. induction Fs as [|F Fs IH]; simpl; [discriminate|].
  specialize (Hk F). unfold dict_has in Hk.
  destruct (dict_get d (field_key F)) as [v|]; [|discriminate].
  destruct (load_validator F v) as [[]|e'] eqn:V; [exact IH|].
  intros [= <-]. exact (load_validator_raises_ValueError F v e' V).
Qed.

Lemma load_settings_not_json (name : string) (s : engine) :
  file_lookup (files s) name = Some (Utf8 NotJson) ->
  load_settings name s = (Raised (Exn JSONDecodeError "Expecting value"), s).
Proof.
  intros Hf. unfold load_settings, json_load_file, bind at 1. rewrite Hf.
  reflexivity.
Qed.

Lemma open_settings_unfold (file_name : string) (w : Gui.window) :
  String.eqb file_name "" = false ->
  Gui.open_settings file_name w
  = match load_settings file_name (Gui.client_logic w) with
    | (Returned _, s') =>
        (Returned VNone,
         Gui.mkWindow s' (Gui.style_calib_points_mz w)
           (Gui.style_calib_points_resolution w)
           (Gui.message_boxes w) (Gui.gui_log w))
    | (Raised e, s') =>
        if exn_isinstance e ValueError then
          (Returned VNone,
           Gui.mkWindow s' (Gui.style_calib_points_mz w)
             (Gui.style_calib_points_resolution w)
             (Gui.message_boxes w ++ [("Error", exn_msg e)]) (Gui.gui_log w))
        else
          (Raised e,
           Gui.mkWindow s' (Gui.style_calib_points_mz w)
             (Gui.style_calib_points_resolution w)
             (Gui.message_boxes w) (Gui.gui_log w))
    end.
Proof.
  intros Hn. unfold Gui.open_settings. rewrite Hn. cbn [negb].
  unfold Gui.gbind, Gui.gtry, Gui.in_logic, Gui.gret, Gui.message_box.
  cbv beta iota.
  destruct (load_settings file_name (Gui.client_logic w)) as [[v|e] s'].
  - reflexivity.
  - cbn [existsb]. rewrite orb_false_r.
    destruct (exn_isinstance e ValueError); reflexivity.
Qed.

(** X13: [open_settings] with a file chosen.  A file that is not JSON, or a
    record with all seven keys of which one fails its validator, opens one
    "Error" message box, leaves the mirror as it was and returns normally; a
    record whose seven fields are valid replaces the mirror and opens no
    box.  A record that lacks the key mass_range is not reported: the
    [KeyError] is not a [ValueError] and leaves the slot, with no box
    opened and the mirror unchanged. *)
Theorem open_settings_outcome (file_name : string) (d : dict) (w : Gui.window) :
  String.eqb file_name "" = false ->
  (file_lookup (files (Gui.client_logic w)) file_name = Some (Utf8 NotJson) ->
   fst (Gui.open_settings file_name w) = Returned VNone /\
   settings (Gui.client_logic (snd (Gui.open_settings file_name w)))
   = settings (Gui.client_logic w) /\
   exists text,
     Gui.message_boxes (snd (Gui.open_settings file_name w))
     = (Gui.message_boxes w ++ [("Error", text)])%list) /\
  (file_lookup (files (Gui.client_logic w)) file_name
   = Some (Utf8 (Json (VDict d))) ->
   ((forall F, dict_has d (field_key F) = true) ->
    fst (Gui.open_settings file_name w) = Returned VNone /\
    (valid_mirror d = true ->
     settings (Gui.client_logic (snd (Gui.open_settings file_name w))) = d /\
     Gui.message_boxes (snd (Gui.open_settings file_name w))
     = Gui.message_boxes w) /\
    (valid_mirror d = false ->
     settings (Gui.client_logic (snd (Gui.open_settings file_name w)))
     = settings (Gui.client_logic w) /\
     exists text,
       Gui.message_boxes (snd (Gui.open_settings file_name w))
       = (Gui.message_boxes w ++ [("Error", text)])%list)) /\
   (dict_has d "mass_range" = false ->
    fst (Gui.open_settings file_name w) = Raised (Exn KeyError "mass_range") /\
    settings (Gui.client_logic (snd (Gui.open_settings file_name w)))
    = settings (Gui.client_logic w) /\
    Gui.message_boxes (snd (Gui.open_settings file_name w))
    = Gui.message_boxes w)).
Proof.
  intros Hn. rewrite (open_settings_unfold file_name w Hn). split.
  - intros Hf. rewrite (load_settings_not_json file_name _ Hf).
    simpl. repeat split. now eexists.
  - intros Hf. rewrite (load_settings_unfold file_name _ _ Hf). split.
    + intros Hk.
      pose proof (check_fields_passes (VDict d) all_fields) as Hr.
      fold (valid_mirror d) in Hr.
      destruct (check_fields (VDict d) all_fields) as [[]|e] eqn:C.
      * cbn [is_raised] in Hr. symmetry in Hr. apply negb_false_iff in Hr.
        pose proof (proj1 (valid_mirror_iff d) Hr) as Hall.
        destruct (load_publish_valid d (Gui.client_logic w) Hall)
          as (R & S & _).
        destruct (load_publish (VDict d) (Gui.client_logic w)) as [r s'].
        simpl in R, S. subst r. simpl.
        split; [reflexivity|]. split; [now split|]. congruence.
      * cbn [is_raised] in Hr. symmetry in Hr. apply negb_true_iff in Hr.
        pose proof (check_fields_raises_ValueError d all_fields e Hk C) as Ec.
        assert (Ei : exn_isinstance e ValueError = true)
          by (unfold exn_isinstance; now rewrite Ec).
        rewrite Ei. simpl.
        split; [reflexivity|]. split; [congruence|].
        intros _. split; [reflexivity|]. now exists (exn_msg e).
    + intros Hm. unfold all_fields, check_fields, getitem. simpl field_key.
      unfold dict_has in Hm.
      destruct (dict_get d "mass_range"); [discriminate|]. simpl.
      repeat split.
Qed.

Lemma open_settings_outcome_witness :
  (fst (Gui.open_settings "bad.json" window_with_files) = Returned VNone /\
   settings (Gui.client_logic (snd (Gui.open_settings "bad.json" window_with_files)))
   = settings online) /\
  (fst (Gui.open_settings "short.json" window_with_files)
   = Raised (Exn KeyError "mass_range") /\
   Gui.message_boxes (snd (Gui.open_settings "short.json" window_with_files)) = []).
Proof.
  destruct (open_settings_outcome "bad.json" bad_snapshot window_with_files
              eq_refl) as [_ Hrec].
  destruct (Hrec eq_refl) as [Hall _].
  assert (Hk : forall F, dict_has bad_snapshot (field_key F) = true)
    by (intros F; destruct F; reflexivity).
  destruct (Hall Hk) as (Hr & _ & Hbad).
  destruct (Hbad eq_refl) as [Hs _].
  destruct (open_settings_outcome "short.json" snapshot_without_mass_range
              window_with_files eq_refl) as [_ Hrec'].
  destruct (Hrec' eq_refl) as [_ Hmissing].
  destruct (Hmissing eq_refl) as (Hr' & _ & Hb').
  exact (conj (conj Hr Hs) (conj Hr' Hb')).
Defined.

Lemma gui_save_settings_writes (file_name : string) (w : Gui.window) :
  String.eqb file_name "" = false ->
  fst (Gui.save_settings file_name false w) = Returned VNone /\
  settings (Gui.client_logic (snd (Gui.save_settings file_name false w)))
  = settings (Gui.client_logic w) /\
  files (Gui.client_logic (snd (Gui.save_settings file_name false w)))
  = files (snd (save_settings file_name (Gui.client_logic w))).
Proof.
  intros Hn. unfold Gui.save_settings. rewrite Hn. cbn [negb].
  unfold Gui.gbind, Gui.path_exists, Gui.in_logic, Gui.message_box, Gui.gret.
  cbv beta iota.
  destruct (file_lookup (files (Gui.client_logic w)) file_name);
    simpl; repeat split.
Qed.

(** X14: at the front-end, once [save_settings] has written the chosen
    file and returned, opening that file again returns normally, opens no
    error box and leaves the mirror as it was, whenever the mirror is valid;
    when the file exists and the overwrite question is answered No, nothing
    is written. *)
Theorem gui_save_then_open (file_name : string) (w saved : Gui.window) :
  String.eqb file_name "" = false ->
  valid_mirror (settings (Gui.client_logic w)) = true ->
  (Gui.save_settings file_name false w = (Returned VNone, saved) ->
   fst (Gui.open_settings file_name saved) = Returned VNone /\
   settings (Gui.client_logic (snd (Gui.open_settings file_name saved)))
   = settings (Gui.client_logic w) /\
   Gui.message_boxes (snd (Gui.open_settings file_name saved))
   = Gui.message_boxes saved) /\
  (forall b, file_lookup (files (Gui.client_logic w)) file_name = Some b ->
     files (Gui.client_logic (snd (Gui.save_settings file_name true w)))
     = files (Gui.client_logic w)).
Proof.
  intros Hn Hv. split.
  - intros Es.
    destruct (gui_save_settings_writes file_name w Hn) as (_ & S & Fi).
    rewrite Es in S, Fi. simpl in S, Fi.
    rewrite (open_settings_unfold file_name saved Hn).
    destruct (load_saved file_name (Gui.client_logic w) (Gui.client_logic saved)
                Hv Fi) as [R S'].
    destruct (load_settings file_name (Gui.client_logic saved)) as [r s'].
    simpl in R, S'. subst r. simpl. rewrite S'. repeat split.
  - intros b Hb. unfold Gui.save_settings. rewrite Hn. cbn [negb].
    unfold Gui.gbind, Gui.path_exists, Gui.in_logic, Gui.message_box, Gui.gret.
    cbv beta iota. rewrite Hb. reflexivity.
Qed.

Lemma gui_save_then_open_witness :
  fst (Gui.open_settings "good.json"
         (snd (Gui.save_settings "good.json" false window_with_files)))
  = Returned VNone /\
  settings (Gui.client_logic
              (snd (Gui.open_settings "good.json"
                      (snd (Gui.save_settings "good.json" false window_with_files)))))
  = settings online /\
  files (Gui.client_logic (snd (Gui.save_settings "good.json" true window_with_files)))
  = files (Gui.client_logic window_with_files).
Proof.
  destruct (gui_save_then_open "good.json" window_with_files
              (snd (Gui.save_settings "good.json" false window_with_files))
              eq_refl eq_refl)
    as [Hsave Hno].
  destruct (Hsave eq_refl) as (Hr & Hs & _).
  exact (conj Hr (conj Hs (Hno _ eq_refl))).
Defined.

(** ** Device errors *)

Lemma route_error (topic : string) :
  contains "/connected/" topic = false ->
  contains "/error/" topic = true ->
  route topic = B_error.
Proof. intros H1 H2. unfold route. now rewrite H1, H2. Qed.

(** X15: a message whose topic holds [/error/] (and not [/connected/]) is a
    device error whatever its topic ends in and whatever its payload says:
    [on_message] returns normally, raises the device status "IO error" and
    nothing else, and neither the mirror nor the published messages
    change. *)
Theorem device_error_only_reports (m : message) (s : engine) :
  contains "/connected/" (msg_topic m) = false ->
  contains "/error/" (msg_topic m) = true ->
  is_text (msg_payload m) = true ->
  fst (on_message m s) = Returned VNone /\
  settings (snd (on_message m s)) = settings s /\
  published (snd (on_message m s)) = published s /\
  emitted (snd (on_message m s))
  = (emitted s ++ [(signal_device_status_changed, VStr "IO error")])%list.
Proof.
  intros H1 H2 Hp.
  destruct (msg_payload m) as [|[|v]] eqn:Ep; [discriminate| |].
  - rewrite (on_message_not_json m s Ep), (route_error _ H1 H2).
    simpl. repeat split.
  - rewrite (on_message_json m v s Ep), (route_error _ H1 H2).
    simpl. repeat split.
Qed.

Lemma device_error_only_reports_witness :
  fst (on_message error_report_on_mz online) = Returned VNone /\
  settings (snd (on_message error_report_on_mz online)) = settings online /\
  emitted (snd (on_message error_report_on_mz online))
  = [(signal_device_status_changed, VStr "IO error")].
Proof.
  destruct (device_error_only_reports error_report_on_mz online
              eq_refl eq_refl eq_refl) as (Hr & Hs & _ & He).
  exact (conj Hr (conj Hs He)).
Defined.

(** ** The broker connection *)

Lemma prefix_app (sub q : string) : String.prefix sub (sub ++ q) = true.
Proof.
  induction sub as [|c sub IH]; simpl; [now destruct q|].
  destruct (Ascii.ascii_dec c c) as [_|N]; [exact IH|now destruct N].
Qed.

Lemma contains_prefix (sub s : string) :
  String.prefix sub s = true -> contains sub s = true.
Proof. destruct s; simpl; now intros ->. Qed.

Lemma contains_app (sub p q : string) : contains sub (p ++ sub ++ q) = true.
Proof.
  induction p as [|c p IH].
  - change (contains sub (sub ++ q) = true).
    apply contains_prefix, prefix_app.
  - change (contains sub (String c (p ++ sub ++ q)) = true).
    cbn [contains].
    destruct (String.prefix sub (String c (p ++ sub ++ q))); [reflexivity|exact IH].
Qed.

(** X16: [on_connect] subscribes to the four topics of the engine, in the
    order response, connected, error, state, raises the MQTT status and
    returns; it publishes nothing and leaves the mirror alone, so no state
    is requested from the device at this point.  Whatever base and device
    name are configured, a message that later arrives on the connected
    topic subscribed here, with a payload that is text, is taken for a
    device-connected event, and that is when the four requests go out. *)
Theorem on_connect_subscribes (rc : value) (c : client) :
  fst (on_connect rc c) = Returned VNone /\
  subscriptions (snd (on_connect rc c))
  = (subscriptions c ++ subscription_topics (logic c))%list /\
  published (logic (snd (on_connect rc c))) = published (logic c) /\
  settings (logic (snd (on_connect rc c))) = settings (logic c) /\
  emitted (logic (snd (on_connect rc c)))
  = (emitted (logic c)
     ++ [(signal_mqtt_status_changed,
          VStr ("connected to broker " ++ mqtt_broker c ++ ":" ++ mqtt_port c))])%list /\
  In (topic_base (logic c) ++ "/connected/" ++ device_name (logic c))
     (subscriptions (snd (on_connect rc c))) /\
  forall payload s,
    is_text payload = true ->
    is_connected s = true ->
    published
      (snd (on_message
              (Message (topic_base (logic c) ++ "/connected/" ++ device_name (logic c))
                       payload) s))
    = (published s ++ resync_sequence s)%list.
Proof.
  assert (Hs : subscriptions (snd (on_connect rc c))
               = (subscriptions c ++ subscription_topics (logic c))%list).
  { unfold on_connect, subscription_topics, subscribe. simpl.
    now rewrite <- !app_assoc. }
  split; [reflexivity|]. split; [exact Hs|].
  split; [reflexivity|]. split; [reflexivity|].
  - split; [reflexivity|]. split.
    + rewrite Hs. apply in_or_app. right.
      unfold subscription_topics. simpl. tauto.
    + intros payload s Hp Hc.
      destruct (on_message_device_connected
                  (Message (topic_base (logic c) ++ "/connected/"
                            ++ device_name (logic c)) payload) s Hc)
        as (s' & E & P & _).
      * unfold device_connected_event. cbn [msg_topic msg_payload].
        rewrite (contains_app "/connected/" (topic_base (logic c))
                   (device_name (logic c))).
        now destruct payload.
      * now rewrite E.
Qed.

Lemma on_connect_subscribes_witness :
  subscriptions (snd (on_connect (VInt 0) connected_client))
  = [ "qsource3/response/dev/#"; "qsource3/connected/dev";
      "qsource3/error/dev/#"; "qsource3/status/dev/state" ] /\
  published (snd (on_message (Message "qsource3/connected/dev" (Utf8 NotJson))
                             online))
  = resync_sequence online.
Proof.
  destruct (on_connect_subscribes (VInt 0) connected_client)
    as (_ & Hs & _ & _ & _ & _ & Hm).
  exact (conj Hs (Hm (Utf8 NotJson) online eq_refl eq_refl)).
Defined.

(** ** Publishing twice *)

(** X17: two publishes in a row, both of valid values and with the session
    up, send two messages in the order of the calls; the mirror ends with
    the second value in the second field and, when the fields differ, the
    first value in the first field: on one field the last writer wins, and
    different fields do not disturb each other. *)
Theorem publish_twice (F G : field) (v w : value) (s : engine) :
  is_connected s = true ->
  validator F v = Returned tt ->
  validator G w = Returned tt ->
  fst ((publish F v ;; publish G w) s) = Returned VNone /\
  dict_get (settings (snd ((publish F v ;; publish G w) s))) (field_key G)
  = Some w /\
  (F <> G ->
   dict_get (settings (snd ((publish F v ;; publish G w) s))) (field_key F)
   = Some v) /\
  published (snd ((publish F v ;; publish G w) s))
  = (published s
     ++ [ (command_topic s (field_code F), Json (VDict [("value", v)]));
          (command_topic s (field_code G), Json (VDict [("value", w)])) ])%list.
Proof.
  intros Hc Hv Hw.
  erewrite bind_returned by (apply publish_on_valid; eassumption).
  rewrite publish_on_valid by (simpl; assumption).
  simpl. repeat split.
  - apply dict_get_set_same.
  - intros Hne. rewrite dict_get_set_other.
    + apply dict_get_set_same.
    + intros Hk. apply Hne. now apply field_key_inj.
  - unfold command_topic. simpl. now rewrite <- app_assoc.
Qed.

Lemma publish_twice_witness :
  dict_get (settings (snd ((publish F_mz (VInt 5) ;; publish F_mz (VInt 9)) online)))
           "mz" = Some (VInt 9) /\
  published (snd ((publish F_mz (VInt 5) ;; publish F_mz (VInt 9)) online))
  = [ ("qsource3/cmnd/dev/mz", Json (VDict [("value", VInt 5)]));
      ("qsource3/cmnd/dev/mz", Json (VDict [("value", VInt 9)])) ].
Proof.
  destruct (publish_twice F_mz F_mz (VInt 5) (VInt 9) online
              eq_refl eq_refl eq_refl) as (_ & Hs & _ & Hp).
  exact (conj Hs Hp).
Defined.

(** ** The calibration curve for m/z and the device *)

Lemma handler_settings_effect (F : field) (payload : value) (s : engine) :
  settings (snd (handler F payload s)) = settings s \/
  exists v, settings (snd (handler F payload s))
            = dict_set (settings s) (field_key F) v.
Proof.
  rewrite handler_unfold.
  unfold log_func, validated_update, try_except, bind, lift, logger,
    settings_setitem, emit, ret.
  destruct (getitem payload "value") as [v|e].
  - destruct (validator F v) as [[]|e].
    + right. exists v. simpl.
      now destruct (signal_accepts (field_signal F) v).
    + left. now destruct (exn_isinstance e ValueError).
  - left. now destruct (exn_isinstance e ValueError).
Qed.

Lemma handle_device_state_settings_effect (payload : value) (s : engine) :
  settings (snd (handle_device_state payload s)) = settings s \/
  exists v, settings (snd (handle_device_state payload s))
            = dict_set (settings s) "mass_range" v.
Proof.
  destruct payload as [| | | | | |d].
  7: { destruct (handle_device_state_dict d s) as (S & _). rewrite S.
       unfold state_report_settings.
       destruct (dict_get d "range") as [v|]; [|now left].
       destruct (passes (check_mass_range v)); [right; now exists v|now left]. }
  all: left;
    match goal with
    | |- settings (snd (handle_device_state ?p ?s0)) = _ =>
        assert (H : exists l, snd (handle_device_state p s0) = with_log l s0)
    end;
    [ eexists; unfold handle_device_state, log_func;
      (erewrite bind_returned by reflexivity);
      (repeat (apply bind_inert;
               [first [ apply if_in_forward_inert; reflexivity
                      | unfold if_in, try_except, bind, lift;
                        match goal with
                        | |- context [py_in ?k ?p] =>
                            destruct (py_in k p) as [[|]|?]
                        end; reflexivity ]
               | intros _ ])); reflexivity
    | destruct H as [lg ->]; reflexivity ].
Qed.

Lemma route_not_shadowed (topic : string) : shadowed (route topic) = false.
Proof.
  unfold route.
  repeat match goal with
         | |- context [if endswith topic "mz" then _ else _] =>
             destruct (endswith topic "mz") eqn:Hmz
         | |- context [if endswith topic "calib_points_mz" then _ else _] =>
             destruct (endswith topic "calib_points_mz") eqn:Hc;
             [apply (endswith_longer topic "calib_points_" "mz") in Hc; congruence|]
         | |- context [if endswith topic "max_mz" then _ else _] =>
             destruct (endswith topic "max_mz") eqn:Hx;
             [apply (endswith_longer topic "max_" "mz") in Hx; congruence|]
         | |- context [if ?b then _ else _] => destruct b
         end; reflexivity.
Qed.

Lemma dispatch_keeps_calib_points_mz (b : branch) (m : message) (payload : value)
    (s : engine) :
  shadowed b = false ->
  dict_get (settings (snd (dispatch b m payload s))) "calib_points_mz"
  = dict_get (settings s) "calib_points_mz".
Proof.
  intros Hb. destruct b as [| | |F| |]; simpl dispatch.
  - destruct (proj1 (keeps_handle_device_connected
                       (fun s' => settings s' = settings s) (fun _ => True)
                       ltac:(auto) ltac:(auto) (fun _ _ => Logic.I)
                       ltac:(auto) m s eq_refl)).
    reflexivity.
  - reflexivity.
  - destruct (handle_device_state_settings_effect payload s) as [->|[v ->]];
      [reflexivity|]. now apply dict_get_set_other.
  - destruct (handler_settings_effect F payload s) as [->|[v ->]];
      [reflexivity|]. apply dict_get_set_other.
    destruct F; simpl in Hb |- *; try discriminate.
  - discriminate.
  - reflexivity.
Qed.

(** X18: no inbound message changes the mirror's calibration curve for m/z.
    Whatever the topic and the payload, the value under [calib_points_mz] is
    the same after [on_message] as before: the handler that would store a
    reported curve is never reached, so that curve changes only through a
    publish or a load. *)
Theorem inbound_never_sets_calib_points_mz (m : message) (s : engine) :
  dict_get (settings (snd (on_message m s))) "calib_points_mz"
  = dict_get (settings s) "calib_points_mz".
Proof.
  rewrite on_message_unfold.
  destruct (msg_payload m) as [|[|v]] eqn:Ep.
  - unfold received, bind, try_except, lift, logger. rewrite Ep. reflexivity.
  - erewrite bind_returned by (apply received_not_json; exact Ep).
    now rewrite dispatch_keeps_calib_points_mz by apply route_not_shadowed.
  - erewrite bind_returned by (apply received_json; exact Ep).
    now rewrite dispatch_keeps_calib_points_mz by apply route_not_shadowed.
Qed.

(** ** Setting and requesting a field *)

(** X19: a field is requested on the topic it is set on.  With the session
    up, the request method of dc_offst, calib_points_mz or
    calib_points_resolution sends the empty record to the very topic the
    publish method of that field sends [{"value": v}] to, and unlike the
    publish it leaves the mirror alone. *)
Theorem request_shares_publish_topic (F : field) (req : M value) (v : value)
    (s : engine) :
  request F = Some req ->
  is_connected s = true ->
  validator F v = Returned tt ->
  fst (req s) = Returned VNone /\
  settings (snd (req s)) = settings s /\
  published (snd (req s))
  = (published s ++ [(command_topic s (field_code F), Json (VDict []))])%list /\
  published (snd (publish F v s))
  = (published s
     ++ [(command_topic s (field_code F), Json (VDict [("value", v)]))])%list.
Proof.
  intros Hreq Hc Hv. rewrite (publish_on_valid F v s Hc Hv).
  destruct F; try discriminate Hreq; injection Hreq as <-;
    unfold request_dc_offst, request_calib_points_mz,
      request_calib_points_resolution;
    rewrite (request_on _ _ s Hc); simpl; repeat split.
Qed.

Lemma request_shares_publish_topic_witness :
  published (snd (request_dc_offst online))
  = [("qsource3/cmnd/dev/dc_offst", Json (VDict []))] /\
  published (snd (publish F_dc_offst (VInt 3) online))
  = [("qsource3/cmnd/dev/dc_offst", Json (VDict [("value", VInt 3)]))].
Proof.
  destruct (request_shares_publish_topic F_dc_offst request_dc_offst (VInt 3)
              online eq_refl eq_refl eq_refl) as (_ & _ & Hq & Hp).
  exact (conj Hq Hp).
Defined.
